(** * reupload_with_map.py: a shallow embedding and its checked properties

    The script downloads an asset by identifier, uploads its bytes again as
    a new asset, and writes the list of (old, new) identifier pairs to
    [reupload_map.json].  This development embeds the functions of
    [reupload_with_map.py] as Rocq functions and proves properties of them.

    Conventions of the embedding.
    - A Python [str] is a [string]; each [ascii] stands for the code point
      of the same number (U+0000 .. U+00FF).  Texts with code points beyond
      U+00FF are outside the model.
    - Integers are [Z] (Python integers are unbounded; the interpreter's
      configurable limit on the length of decimal conversions is not
      modelled).
    - A function that prints, sleeps, talks to the network or writes a
      file returns the list of these events next to its result; a function
      that may raise returns either the exception or the value.
    - What the network, the file system and the XML parser answer is an
      input of the model.
    - The Thai text of the printed messages, which no function inspects,
      is held as its UTF-8 bytes; file names are relative to [BASE_DIR]. *)

From Stdlib Require Import ZArith Lia Bool List Ascii String DecimalString.
From Stdlib Require DecimalZ.
From stdpp Require Import base decidable option list strings gmap sorting.

Local Open Scope string_scope.
Local Open Scope Z_scope.

(** ** Python text primitives *)

Definition code (c : ascii) : nat := nat_of_ascii c.

(** [c] is one of [0-9]. *)
Definition is_decimal_char (c : ascii) : bool :=
  (48 <=? code c)%nat && (code c <=? 57)%nat.

(** [str.isdigit] on one character: the decimal digits and, below U+0100,
    the superscripts U+00B2, U+00B3 and U+00B9.  The digits of other
    scripts (U+0661 and the like), which [str.isdigit] and [int] accept as
    well, lie beyond U+00FF: no text of the model holds them, and no
    property below is stated about them. *)
Definition isdigit_char (c : ascii) : bool :=
  is_decimal_char c
  || (code c =? 178)%nat || (code c =? 179)%nat || (code c =? 185)%nat.

(** [str.isspace] on one character. *)
Definition isspace_char (c : ascii) : bool :=
  ((9 <=? code c)%nat && (code c <=? 13)%nat)
  || ((28 <=? code c)%nat && (code c <=? 32)%nat)
  || (code c =? 133)%nat || (code c =? 160)%nat.

Fixpoint str_forall (p : ascii -> bool) (s : string) : bool :=
  match s with
  | EmptyString => true
  | String c s' => p c && str_forall p s'
  end.

(** [s.isdigit()]: every character is a digit and there is at least one. *)
Definition isdigit (s : string) : bool :=
  match s with
  | EmptyString => false
  | _ => str_forall isdigit_char s
  end.

(** Truth value of a [str]: non-empty. *)
Definition str_truthy (s : string) : bool :=
  match s with EmptyString => false | _ => true end.

(** [sub in s] for strings. *)
Fixpoint str_contains (sub s : string) : bool :=
  String.prefix sub s
  || match s with
     | EmptyString => false
     | String _ s' => str_contains sub s'
     end.

(** [s.replace(old, new)] for a non-empty [old]: the occurrences of [old]
    are found from left to right, without overlap.  [skip] counts the
    characters of a matched occurrence that are still to be dropped. *)
Fixpoint replace_go (old new : string) (skip : nat) (s : string) : string :=
  match s with
  | EmptyString => EmptyString
  | String c s' =>
      match skip with
      | S k => replace_go old new k s'
      | O =>
          if String.prefix old s
          then new +:+ replace_go old new (String.length old - 1) s'
          else String c (replace_go old new 0 s')
      end
  end.

Definition str_replace (old new s : string) : string := replace_go old new 0 s.

(** [s.split(sep)[-1]] for a non-empty [sep]: the text after the last
    occurrence of [sep] in the left-to-right scan, [s] itself when there
    is none.  [acc] is the piece being read. *)
Fixpoint split_last_go (sep : string) (skip : nat) (acc : string) (s : string)
  : string :=
  match s with
  | EmptyString => acc
  | String c s' =>
      match skip with
      | S k => split_last_go sep k acc s'
      | O =>
          if String.prefix sep s
          then split_last_go sep (String.length sep - 1) EmptyString s'
          else split_last_go sep 0 (acc +:+ String c EmptyString) s'
      end
  end.

Definition split_last (sep s : string) : string :=
  split_last_go sep 0 EmptyString s.

Definition char_in (c : ascii) (chars : string) : bool :=
  str_contains (String c EmptyString) chars.

Fixpoint lstrip_by (p : ascii -> bool) (s : string) : string :=
  match s with
  | EmptyString => EmptyString
  | String c s' => if p c then lstrip_by p s' else s
  end.

Fixpoint rstrip_by (p : ascii -> bool) (s : string) : string :=
  match s with
  | EmptyString => EmptyString
  | String c s' =>
      match rstrip_by p s' with
      | EmptyString => if p c then EmptyString else String c EmptyString
      | t => String c t
      end
  end.

Definition strip_by (p : ascii -> bool) (s : string) : string :=
  rstrip_by p (lstrip_by p s).

(** [s.strip(chars)]. *)
Definition strip (chars s : string) : string :=
  strip_by (fun c => char_in c chars) s.

(** [s[:n]]. *)
Definition str_take (n : nat) (s : string) : string := String.substring 0 n s.

(** [str(z)] for an integer. *)
Definition str_of_int (z : Z) : string := NilZero.string_of_int (Z.to_int z).

(** *** [int(s)] for a string

    The text is stripped of the white space [int] knows, may start with one
    sign, and is a run of decimal digits in which single underscores may
    separate digits.  [None] stands for [ValueError]. *)

(** The white space [int] strips: the ASCII white space U+0009..U+000D and
    U+0020, and U+0085 and U+00A0.  The separators U+001C..U+001F, white
    space for [str.isspace] and [str.strip], are not among it. *)
Definition int_space_char (c : ascii) : bool :=
  ((9 <=? code c)%nat && (code c <=? 13)%nat)
  || (code c =? 32)%nat || (code c =? 133)%nat || (code c =? 160)%nat.

Definition digit_value (c : ascii) : Z := Z.of_nat (code c) - 48.

(** Reads the digits after the first one.  [after_us] tells that the
    previous character was an underscore, so that a digit must follow. *)
Fixpoint int_digits (acc : Z) (after_us : bool) (s : string) : option Z :=
  match s with
  | EmptyString => if after_us then None else Some acc
  | String c s' =>
      if is_decimal_char c then int_digits (10 * acc + digit_value c) false s'
      else if (code c =? 95)%nat
           then if after_us then None else int_digits acc true s'
           else None
  end.

Definition int_unsigned (s : string) : option Z :=
  match s with
  | String c s' =>
      if is_decimal_char c then int_digits (digit_value c) false s' else None
  | EmptyString => None
  end.

Definition int_of_str (s : string) : option Z :=
  match strip_by int_space_char s with
  | String "+" t => int_unsigned t
  | String "-" t => Z.opp <$> int_unsigned t
  | t => int_unsigned t
  end.


(** ** Values

    The values the script handles beyond text: what [r.json()] returns and
    what the session loops put into the list of pairs. *)

(** A [float]: its exact value as a fraction, and the text [repr] gives for
    it (supplied with the value, not computed). *)
Inductive pyfloat :=
| FNaN
| FInf (negative : bool)
| FFinite (num : Z) (den : positive) (repr : string).

#[warnings="-register-all"]
Inductive json :=
| JNull
| JBool (b : bool)
| JInt (z : Z)
| JFloat (f : pyfloat)
| JStr (s : string)
| JList (items : list json)
| JDict (fields : list (string * json)).

Inductive exn :=
| ValueError
| TypeError
| AttributeError
| OverflowError
| EOFError
| SystemExit
| OtherError (name : string).

(** Python's truth value of a value. *)
Definition truthy (v : json) : bool :=
  match v with
  | JNull => false
  | JBool b => b
  | JInt z => negb (z =? 0)
  | JFloat FNaN => true
  | JFloat (FInf _) => true
  | JFloat (FFinite n _ _) => negb (n =? 0)
  | JStr s => str_truthy s
  | JList l => match l with [] => false | _ => true end
  | JDict d => match d with [] => false | _ => true end
  end.

(** [d.get(key)] on the fields of a [dict]; [None] is Python's [None]
    default, which the callers below only test for truth. *)
Fixpoint dict_get (key : string) (d : list (string * json)) : option json :=
  match d with
  | [] => None
  | (k, v) :: d' => if String.eqb k key then Some v else dict_get key d'
  end.

(** [int(v)]. *)
Definition py_int (v : json) : exn + Z :=
  match v with
  | JInt z => inr z
  | JBool b => inr (if b then 1 else 0)
  | JStr s => match int_of_str s with Some z => inr z | None => inl ValueError end
  | JFloat FNaN => inl ValueError
  | JFloat (FInf _) => inl OverflowError
  | JFloat (FFinite n d _) => inr (Z.quot n (Z.pos d))
  | JNull | JList _ | JDict _ => inl TypeError
  end.

(** *** [json.dumps]

    The encoder with [ensure_ascii] on.  With [indent = None] the items
    are separated by [", "]; with [indent = Some k] by [","] and a new line
    indented by [k] spaces per nesting level. *)

Definition dquote : ascii := "034"%char.
Definition newline : ascii := "010"%char.

Definition hex_digit (n : nat) : ascii :=
  ascii_of_nat (if (n <? 10)%nat then 48 + n else 87 + n)%nat.

Definition backslash : ascii := "092"%char.

Definition esc (c : ascii) : string := String backslash (String c EmptyString).

Definition escape_char (c : ascii) : string :=
  let n := code c in
  if (n =? 34)%nat then esc dquote
  else if (n =? 92)%nat then esc backslash
  else if (n =? 10)%nat then esc "n"
  else if (n =? 13)%nat then esc "r"
  else if (n =? 9)%nat then esc "t"
  else if (n =? 8)%nat then esc "b"
  else if (n =? 12)%nat then esc "f"
  else if ((32 <=? n) && (n <=? 126))%nat then String c EmptyString
  else esc "u" +:+ "00"
       +:+ String (hex_digit (n / 16)) (String (hex_digit (n mod 16)) EmptyString).

Fixpoint escape_str (s : string) : string :=
  match s with
  | EmptyString => EmptyString
  | String c s' => escape_char c +:+ escape_str s'
  end.

Definition dumps_str (s : string) : string :=
  String dquote (escape_str s +:+ String dquote EmptyString).

Definition dumps_float (f : pyfloat) : string :=
  match f with
  | FNaN => "NaN"
  | FInf false => "Infinity"
  | FInf true => "-Infinity"
  | FFinite _ _ r => r
  end.

Fixpoint spaces (n : nat) : string :=
  match n with O => EmptyString | S k => String " " (spaces k) end.

(** The text put between two items at nesting level [level]. *)
Definition newline_indent (indent : option nat) (level : nat) : string :=
  match indent with
  | None => EmptyString
  | Some k => String newline (spaces (k * level))
  end.

Definition item_separator (indent : option nat) : string :=
  match indent with None => ", " | Some _ => "," end.

Fixpoint join (sep : string) (l : list string) : string :=
  match l with
  | [] => EmptyString
  | [x] => x
  | x :: l' => x +:+ sep +:+ join sep l'
  end.

(** An opened container: the items, each on its own line when indented. *)
Definition bracket (indent : option nat) (level : nat) (opening closing : string)
    (items : list string) : string :=
  match items with
  | [] => opening +:+ closing
  | _ =>
      opening +:+ newline_indent indent (S level)
      +:+ join (item_separator indent +:+ newline_indent indent (S level)) items
      +:+ newline_indent indent level +:+ closing
  end.

Fixpoint dumps_at (indent : option nat) (level : nat) (v : json) : string :=
  match v with
  | JNull => "null"
  | JBool true => "true"
  | JBool false => "false"
  | JInt z => str_of_int z
  | JFloat f => dumps_float f
  | JStr s => dumps_str s
  | JList items =>
      bracket indent level "[" "]" (map (dumps_at indent (S level)) items)
  | JDict fields =>
      bracket indent level "{" "}"
        (map (fun kv => dumps_str (fst kv) +:+ ": "
                        +:+ dumps_at indent (S level) (snd kv)) fields)
  end.

Definition json_dumps (indent : option nat) (v : json) : string :=
  dumps_at indent 0 v.


(** ** Effects

    The events a run leaves behind, in order, and the monad that collects
    them: a computation yields its events and either an exception or a
    value. *)

(** A piece of a printed line: text, or a value formatted by [str].
    Of the events, [WriteFile] is a file written in full, [WritePartial] a
    file that was opened for writing and holds only [content] because the
    write failed. *)
Inductive fragment :=
| Txt (s : string)
| Val (v : json).

Inductive event :=
| Print (line : list fragment)
| Input (prompt : string)
| HttpGet (endpoint : string) (asset_id : Z) (headers : list (string * string))
| HttpPost (url : string) (headers : list (string * string))
    (request_part filename file_bytes mime : string)
| Sleep (seconds : Z)
| WriteFile (name content : string)
| WritePartial (name content : string).

Definition M (A : Type) : Type := list event * (exn + A).

#[global] Instance M_ret : MRet M := fun A a => ([], inr a).

#[global] Instance M_bind : MBind M := fun A B k m =>
  match m with
  | (t, inl e) => (t, inl e)
  | (t, inr a) => match k a with (t', r) => ((t ++ t')%list, r) end
  end.

Definition raise {A : Type} (e : exn) : M A := ([], inl e).
Definition emit (e : event) : M unit := ([e], inr tt).
Definition print (line : list fragment) : M unit := emit (Print line).
Definition lift {A : Type} (r : exn + A) : M A := ([], r).

Definition events {A : Type} (m : M A) : list event := fst m.
Definition outcome {A : Type} (m : M A) : exn + A := snd m.

Definition is_network (e : event) : bool :=
  match e with
  | HttpGet _ _ _ | HttpPost _ _ _ _ _ _ => true
  | _ => false
  end.

Definition is_sleep (e : event) : bool :=
  match e with Sleep _ => true | _ => false end.

(** ** Configuration and transport *)

(** [cfg]: the credentials ([None] for an absent or null entry) and the two
    endpoints. *)
Record config := {
  x_api_key : option string;
  roblosecurity : option string;
  download_endpoint : string;
  upload_endpoint : string
}.

Definition DEFAULT_CFG : config := {|
  x_api_key := None;
  roblosecurity := None;
  download_endpoint :=
    "https://apis.roblox.com/asset-delivery-api/v1/assetId/{assetId}";
  upload_endpoint := "https://apis.roblox.com/assets/v1/assets"
|}.

(** What the script reads of an HTTP response.  [text_raises] is the
    exception that reading [r.text] raises when the body of a streamed
    response (the GET, line 87) cannot be read; [content] is [inl msg] when
    reading the body raises; [json_body] is [None] when [r.json()]
    raises. *)
Record response := {
  status_code : Z;
  text : string;
  text_raises : option exn;
  content_disposition : option string;
  content_type : option string;
  content : string + string;
  json_body : option json
}.

(** The answers of the outside world to one run of the pipeline: a request
    either raises (with the text of the exception) or yields a response.
    For the GET, whose URL is built from the endpoint template and the
    identifier (line 84), [inl e] says that building the URL raises [e],
    before any request is made.  [guess_type] is the table of
    [mimetypes]. *)
Record transport := {
  requests_get :
    string -> Z -> list (string * string) -> exn + (string + response);
  requests_post :
    string -> list (string * string) -> string -> string -> string -> string ->
    string + response;
  guess_type : string -> option string
}.

Definition opt_truthy (o : option string) : bool :=
  match o with Some s => str_truthy s | None => false end.

Definition build_headers (cfg : config) : list (string * string) :=
  let headers := [("User-Agent", "AssetReuploaderTemplate/1.2")] in
  let headers :=
    if opt_truthy (x_api_key cfg)
    then (headers ++ [("x-api-key", default EmptyString (x_api_key cfg))])%list
    else headers in
  if opt_truthy (roblosecurity cfg)
  then (headers
        ++ [("Cookie", ".ROBLOSECURITY=" +:+ default EmptyString (roblosecurity cfg))])%list
  else headers.

Definition guess_mime_from_name (net : transport) (name : string) : string :=
  match guess_type net name with
  | Some t => if str_truthy t then t else "application/octet-stream"
  | None => "application/octet-stream"
  end.

Record downloaded := { bytes : string; filename : string }.

(** [download_asset]: [inl msg] is [(False, msg)], [inr d] is [(True, d)].
    Building the URL (line 84) and reading [r.text] (line 91) stand outside
    the [try] blocks: what they raise leaves the function. *)
Definition download_asset (cfg : config) (net : transport) (asset_id : Z)
  : M (string + downloaded) :=
  let headers := build_headers cfg in
  match requests_get net (download_endpoint cfg) asset_id headers with
  | inl e => raise e
  | inr answer =>
    emit (HttpGet (download_endpoint cfg) asset_id headers);;
    match answer with
    | inl e => mret (inl ("Request error: " +:+ e))
    | inr r =>
        if 400 <=? status_code r
        then
          match text_raises r with
          | Some e => raise e
          | None =>
              mret (inl ("Download failed " +:+ str_of_int (status_code r) +:+ ": "
                         +:+ str_take 400 (text r)))
          end
        else
          let filename :=
            match content_disposition r with
            | Some cd =>
                if str_truthy cd && str_contains "filename=" cd
                then Some (strip (String " " (String dquote EmptyString))
                             (split_last "filename=" cd))
                else None
            | None => None
            end in
          let filename :=
            if opt_truthy filename then default EmptyString filename
            else
              let ct := default EmptyString (content_type r) in
              let ext :=
                if str_contains "xml" ct then ".rbxm"
                else if str_contains "text/xml" ct || str_contains "application/xml" ct
                     then ".rbxm"
                     else ".bin" in
              "asset_" +:+ str_of_int asset_id +:+ ext in
          match content r with
          | inl e => mret (inl ("Failed read content: " +:+ e))
          | inr c => mret (inr {| bytes := c; filename := filename |})
          end
    end
  end.

(** [upload_asset]: [inl msg] is [(False, msg)], [inr v] is [(True, v)]. *)
Definition upload_asset (cfg : config) (net : transport)
    (file_bytes filename display_name description asset_type : string)
  : M (string + json) :=
  let url := upload_endpoint cfg in
  let headers := build_headers cfg in
  let request_payload := JDict [
    ("assetType", JStr (if str_truthy asset_type then asset_type else "Model"));
    ("displayName", JStr display_name);
    ("description", JStr description);
    ("creationContext", JDict [])] in
  let request_part := json_dumps None request_payload in
  let mime := guess_mime_from_name net filename in
  emit (HttpPost url headers request_part filename file_bytes mime);;
  match requests_post net url headers request_part filename file_bytes mime with
  | inl e => mret (inl ("Upload request failed: " +:+ e))
  | inr r =>
      if 400 <=? status_code r
      then mret (inl ("Upload failed " +:+ str_of_int (status_code r) +:+ ": "
                      +:+ str_take 1000 (text r)))
      else
        match json_body r with
        | Some v => mret (inr v)
        | None => mret (inl ("Upload returned non-json: " +:+ str_take 1000 (text r)))
        end
  end.

(** ** Reupload logic *)

(** [d.get(key)] with Python's [None] for a missing key. *)
Definition py_get (key : string) (d : list (string * json)) : json :=
  default JNull (dict_get key d).

(** [v.get(key)] on any value: only a [dict] has the method. *)
Definition attr_get (v : json) (key : string) : exn + json :=
  match v with
  | JDict d => inr (py_get key d)
  | _ => inl AttributeError
  end.

(** Lines 160-162 of [process_reupload]: [new_id] after the lookup.
    [a or b] yields [a] when [a] is true and evaluates [b] otherwise. *)
Definition new_id_of (res : json) : exn + json :=
  match res with
  | JDict d =>
      let a := py_get "assetId" d in
      if truthy a then inr a
      else
        let b := py_get "id" d in
        if truthy b then inr b
        else attr_get (default (JDict []) (dict_get "data" d)) "assetId"
  | _ => inr JNull
  end.

Definition dashes : string :=
  "------------------------------------------------------------".

(** [process_reupload]: the result is the pair [(ok, new_id)], with
    [JNull] for [None]. *)
Definition process_reupload (cfg : config) (net : transport)
    (asset_id dname ddesc atype : string) : M (bool * json) :=
  match int_of_str asset_id with
  | None =>
      print [Txt "[ERROR] Invalid AssetId: "; Txt asset_id;
             Txt ". Must be a number. Skipping."];;
      mret (false, JNull)
  | Some asset_id_int =>
      let id := Txt (str_of_int asset_id_int) in
      print [Txt (String newline "--- Processing AssetId: "); id; Txt " ---"];;
      print [Txt "[STEP] Downloading asset "; id; Txt " ..."];;
      dl ← download_asset cfg net asset_id_int;
      match dl with
      | inl data =>
          print [Txt "[ERROR] Download failed for "; id; Txt ": "; Txt data];;
          mret (false, JNull)
      | inr data =>
          print [Txt "[OK] Downloaded "; id; Txt ". filename: "; Txt (filename data)];;
          print [Txt "[STEP] Uploading new asset (Name: "; Txt dname; Txt ")..."];;
          up ← upload_asset cfg net (bytes data) (filename data) dname ddesc atype;
          match up with
          | inl res =>
              print [Txt "[ERROR] Upload failed for "; id; Txt ": "; Txt res];;
              mret (false, JNull)
          | inr res =>
              print [Txt "[SUCCESS] Upload response for original "; id; Txt ":"];;
              new_id ← lift (new_id_of res);
              if truthy new_id then
                print [Txt "Original ID: "; id; Txt "  --->  New Asset ID: "; Val new_id];;
                print [Txt dashes];;
                emit (Sleep 1);;
                mret (true, new_id)
              else
                print [Txt "Could not find new asset id for "; id; Txt " in response:"];;
                print [Txt (json_dumps (Some 2%nat) res)];;
                print [Txt dashes];;
                emit (Sleep 1);;
                mret (false, JNull)
          end
      end
  end.

(** ** File extractor *)

(** An element of the parsed document, as [xml.etree.ElementTree] gives it. *)
#[warnings="-register-all"]
Inductive element :=
| Element (tag : string) (attrib : list (string * string))
    (text : option string) (children : list element).

Definition el_tag (e : element) : string :=
  match e with Element t _ _ _ => t end.
Definition el_attrib (e : element) : list (string * string) :=
  match e with Element _ a _ _ => a end.
Definition el_text (e : element) : option string :=
  match e with Element _ _ t _ => t end.
Definition el_children (e : element) : list element :=
  match e with Element _ _ _ c => c end.

Fixpoint attrib_get (key : string) (a : list (string * string)) : option string :=
  match a with
  | [] => None
  | (k, v) :: a' => if String.eqb k key then Some v else attrib_get key a'
  end.

(** The elements below [e] at any depth, in document order. *)
Fixpoint descendants (e : element) : list element :=
  match e with
  | Element _ _ _ cs => flat_map (fun c => c :: descendants c) cs
  end.

(** [e.findall(".//" + name)]. *)
Definition findall_below (name : string) (e : element) : list element :=
  filter (fun d => el_tag d = name) (descendants e).

(** [e.find(name)]: the first child with that tag. *)
Definition find_child (name : string) (e : element) : option element :=
  head (filter (fun d => el_tag d = name) (el_children e)).

Definition scheme : string := "rbxassetid://".

(** The test of line 73: the marker is in the tag, or in the [name]
    attribute when there is one. *)
Definition has_marker (prop : element) : bool :=
  str_contains "AnimationId" (el_tag prop)
  || str_contains "AnimationId"
       (match attrib_get "name" (el_attrib prop) with
        | Some n => if str_truthy n then n else EmptyString
        | None => EmptyString
        end).

(** The body of the loop over the properties (lines 73-79). *)
Definition scan_prop (animation_ids : gset string) (prop : element) : gset string :=
  if has_marker prop
  then
    match el_text prop with
    | Some value =>
        if str_truthy value then
          let value :=
            if str_contains scheme value
            then str_replace scheme EmptyString value
            else value in
          if isdigit value then {[ value ]} ∪ animation_ids else animation_ids
        else animation_ids
    | None => animation_ids
    end
  else animation_ids.

(** The body of the loop over the items (lines 70-79). *)
Definition scan_item (animation_ids : gset string) (item : element) : gset string :=
  match find_child "Properties" item with
  | None => animation_ids
  | Some properties => foldl scan_prop animation_ids (el_children properties)
  end.

(** [extract_animation_ids]: [parsed] is what [ET.parse(rbxl_path)] and
    [getroot] yield, [inl msg] when they raise. *)
Definition extract_animation_ids (rbxl_path : string) (parsed : string + element)
  : M (gset string) :=
  match parsed with
  | inl e =>
      print [Txt "[ERROR] ไม่สามารถเปิดไฟล์ "; Txt rbxl_path; Txt ": "; Txt e];;
      mret ∅
  | inr root =>
      print [Txt "[INFO] กำลังค้นหาไฟล์ "; Txt rbxl_path; Txt "..."];;
      mret (foldl scan_item ∅ (findall_below "Item" root))
  end.

(** ** Saving the map *)

(** The loop of lines 183-185: [int] of both members of each pair, in
    order; the first exception ends it. *)
Fixpoint map_data_of (id_pairs_list : list (json * json)) : exn + list json :=
  match id_pairs_list with
  | [] => inr []
  | (old, new) :: rest =>
      match py_int old with
      | inl e => inl e
      | inr o =>
          match py_int new with
          | inl e => inl e
          | inr n =>
              match map_data_of rest with
              | inl e => inl e
              | inr tl => inr (JDict [("oldId", JInt o); ("newId", JInt n)] :: tl)
              end
          end
      end
  end.

Definition map_filename : string := "reupload_map.json".

(** How the [try] block of lines 188-190 can fail: [open] raises and the
    file is left as it was, or [json.dump] raises after [open] has emptied
    the file, [kept] characters having reached it.  [msg] is the text of the
    exception. *)
Inductive io_failure :=
| OpenFails (msg : string)
| WriteFails (msg : string) (kept : nat).

Definition failure_text (f : io_failure) : string :=
  match f with
  | OpenFails msg => msg
  | WriteFails msg _ => msg
  end.

(** [save_id_map]: [io_error] is the failure of the [try] block, if any. *)
Definition save_id_map (io_error : option io_failure)
    (id_pairs_list : list (json * json)) : M unit :=
  map_data ← lift (map_data_of id_pairs_list);
  let content := json_dumps (Some 2%nat) (JList map_data) in
  match io_error with
  | None =>
      emit (WriteFile map_filename content);;
      print [Txt (String newline "[COMPLETE] บันทึกแผนที่ ID (ID map) ไว้ที่ ");
             Txt map_filename; Txt " เรียบร้อยแล้ว"];;
      print [Txt "ใช้ไฟล์นี้ใน Roblox Plugin ของคุณเพื่อทำการแทนที่ ID"]
  | Some f =>
      match f with
      | OpenFails _ => mret tt
      | WriteFails _ kept =>
          emit (WritePartial map_filename (str_take kept content))
      end;;
      print [Txt (String newline "[ERROR] ไม่สามารถบันทึก ID map file: ");
             Txt (failure_text f)]
  end.

(** ** Session loops *)

(** [all_id_pairs.append((old, new))]. *)
Definition append_pair (all_id_pairs : list (json * json)) (old new : json)
  : list (json * json) :=
  (all_id_pairs ++ [(old, new)])%list.

Definition pairs_truthy (l : list (json * json)) : bool :=
  match l with [] => false | _ => true end.

(** The loop of lines 237-245 over the sorted identifiers.  The [n]-th run
    of the pipeline talks to [nets n]. *)
Fixpoint batch_loop (cfg : config) (nets : nat -> transport)
    (dname_prefix ddesc atype : string) (total : nat) (count : nat)
    (all_id_pairs : list (json * json)) (ids : list string)
  : M (list (json * json)) :=
  match ids with
  | [] => mret all_id_pairs
  | asset_id :: rest =>
      let count' := S count in
      let dname := dname_prefix +:+ asset_id in
      print [Txt "[BATCH "; Txt (str_of_int (Z.of_nat count')); Txt "/";
             Txt (str_of_int (Z.of_nat total)); Txt "]"];;
      r ← process_reupload cfg (nets count) asset_id dname ddesc atype;
      batch_loop cfg nets dname_prefix ddesc atype total count'
        (if fst r && truthy (snd r)
         then append_pair all_id_pairs (JStr asset_id) (snd r)
         else all_id_pairs)
        rest
  end.

(** [sorted(ids_to_process)]. *)
Definition sorted_ids (ids_to_process : gset string) : list string :=
  merge_sort String.le (elements ids_to_process).

(** Mode 1 from line 235 on, for a non-empty set of identifiers. *)
Definition batch_mode (cfg : config) (nets : nat -> transport)
    (io_error : option io_failure) (ids_to_process : gset string)
    (dname_prefix ddesc atype : string) : M (list (json * json)) :=
  let total := size ids_to_process in
  print [Txt (String newline "[BATCH] Starting reupload for ");
         Txt (str_of_int (Z.of_nat total)); Txt " assets..."];;
  all_id_pairs ← batch_loop cfg nets dname_prefix ddesc atype total 0 []
                   (sorted_ids ids_to_process);
  print [Txt "[BATCH] Batch processing complete."];;
  (if pairs_truthy all_id_pairs then save_id_map io_error all_id_pairs
   else mret tt);;
  mret all_id_pairs.

(** [str.lower] on one character. *)
Definition lower_char (c : ascii) : ascii :=
  let n := code c in
  if ((65 <=? n) && (n <=? 90))%nat
     || ((192 <=? n) && (n <=? 222) && negb (n =? 215))%nat
  then ascii_of_nat (n + 32)
  else c.

Fixpoint lower (s : string) : string :=
  match s with
  | EmptyString => EmptyString
  | String c s' => String (lower_char c) (lower s')
  end.

Definition str_in_list (s : string) (l : list string) : bool :=
  existsb (String.eqb s) l.

Definition or_default (s d : string) : string :=
  if str_truthy s then s else d.

Definition prompt_aid : string :=
  "Enter AssetId to reupload (or 'b' to go back, 'q' to quit): ".

(** The loop of lines 254-277.  [stdin] holds the lines still to be read;
    [input] raises [EOFError] when there is none.  The result is the list
    of pairs when the loop is left by ['b']. *)
Fixpoint manual_loop (cfg : config) (nets : nat -> transport)
    (io_error : option io_failure) (run : nat)
    (all_id_pairs : list (json * json)) (stdin : list string)
  : M (list (json * json)) :=
  emit (Input prompt_aid);;
  match stdin with
  | [] => raise EOFError
  | line :: stdin1 =>
      let aid := strip_by isspace_char line in
      if str_in_list (lower aid) ["q"; "quit"; "exit"] then
        print [Txt "Exiting."];;
        (if pairs_truthy all_id_pairs then save_id_map io_error all_id_pairs
         else mret tt);;
        raise SystemExit
      else if String.eqb (lower aid) "b" then
        print [Txt "Returning to main menu..."];;
        (if pairs_truthy all_id_pairs then save_id_map io_error all_id_pairs
         else mret tt);;
        mret all_id_pairs
      else if negb (isdigit aid) then
        print [Txt "AssetId must be a number."];;
        manual_loop cfg nets io_error run all_id_pairs stdin1
      else
        emit (Input ("Enter display name for new asset (empty to use Reupload_"
                     +:+ aid +:+ "): "));;
        match stdin1 with
        | [] => raise EOFError
        | line2 :: stdin2 =>
            let dname := or_default (strip_by isspace_char line2) ("Reupload_" +:+ aid) in
            emit (Input "Enter description (optional): ");;
            match stdin2 with
            | [] => raise EOFError
            | line3 :: stdin3 =>
                let ddesc := strip_by isspace_char line3 in
                emit (Input "Asset type (Model/Decal/Audio) [Model]: ");;
                match stdin3 with
                | [] => raise EOFError
                | line4 :: stdin4 =>
                    let atype := or_default (strip_by isspace_char line4) "Model" in
                    r ← process_reupload cfg (nets run) aid dname ddesc atype;
                    manual_loop cfg nets io_error (S run)
                      (if fst r && truthy (snd r)
                       then append_pair all_id_pairs (JStr aid) (snd r)
                       else all_id_pairs)
                      stdin4
                end
            end
        end
  end.

(** ** Observations on a run *)

(** The network calls and the pauses of a trace, in order. *)
Definition calls (t : list event) : list event := List.filter is_network t.
Definition sleeps (t : list event) : list event := List.filter is_sleep t.

(** The contents written to the file system, in order. *)
Definition written (t : list event) : list (string * string) :=
  omap (fun e => match e with WriteFile n c => Some (n, c) | _ => None end) t.

(** ** Canned answers of the outside world, for the examples *)

Definition ok_response (body : option json) : response := {|
  status_code := 200;
  text := EmptyString;
  text_raises := None;
  content_disposition := None;
  content_type := None;
  content := inr "payload";
  json_body := body
|}.

Definition error_response (status : Z) : response := {|
  status_code := status;
  text := "denied";
  text_raises := None;
  content_disposition := None;
  content_type := None;
  content := inr EmptyString;
  json_body := None
|}.

(** Fetch succeeds and publish answers [200] with the body [res]. *)
Definition publishing (res : json) : transport := {|
  requests_get := fun _ _ _ => inr (inr (ok_response None));
  requests_post := fun _ _ _ _ _ _ => inr (ok_response (Some res));
  guess_type := fun _ => None
|}.

(** Fetch answers [404]. *)
Definition fetch_refused : transport := {|
  requests_get := fun _ _ _ => inr (inr (error_response 404));
  requests_post := fun _ _ _ _ _ _ => inr (ok_response (Some JNull));
  guess_type := fun _ => None
|}.

(** Fetch succeeds and publish answers [500]. *)
Definition publish_refused : transport := {|
  requests_get := fun _ _ _ => inr (inr (ok_response None));
  requests_post := fun _ _ _ _ _ _ => inr (error_response 500);
  guess_type := fun _ => None
|}.

(** Fetch answers [404] with a body that cannot be read: the connection
    breaks while [r.text] loads it. *)
Definition unreadable_response : response := {|
  status_code := 404;
  text := EmptyString;
  text_raises := Some (OtherError "ChunkedEncodingError");
  content_disposition := None;
  content_type := None;
  content := inl "unreachable";
  json_body := None
|}.

Definition fetch_unreadable : transport := {|
  requests_get := fun _ _ _ => inr (inr unreadable_response);
  requests_post := fun _ _ _ _ _ _ => inl "unreachable";
  guess_type := fun _ => None
|}.

(** The outside world under an endpoint template that cannot be formatted,
    as [https://host/{id}], whose field [id] the call of line 84 does not
    supply: building the URL raises [KeyError]. *)
Definition bad_endpoint : transport := {|
  requests_get := fun _ _ _ => inl (OtherError "KeyError");
  requests_post := fun _ _ _ _ _ _ => inl "unreachable";
  guess_type := fun _ => None
|}.

(** ** Sample documents, for the examples *)

(** A property whose [name] attribute carries the marker. *)
Definition marked_prop (value : string) : element :=
  Element "Content" [("name", "AnimationId")] (Some value) [].

(** A document with one item holding the properties [props]. *)
Definition document_of (props : list element) : element :=
  Element "roblox" [("version", "4")] None
    [Element "Item" [("class", "Animation")] None
       [Element "Properties" [] None props]].

(** ** The specification's reading of the identifier lookup

    "Checking, in order: a top-level [assetId] field, then a top-level [id]
    field, then a nested [data.assetId] field.  The first present value
    wins." *)
Definition first_present (d : list (string * json)) : option json :=
  match dict_get "assetId" d with
  | Some v => Some v
  | None =>
      match dict_get "id" d with
      | Some v => Some v
      | None =>
          match dict_get "data" d with
          | Some (JDict dd) => dict_get "assetId" dd
          | _ => None
          end
      end
  end.

(** ** The specification's persisted map artifact

    "A JSON array of objects, each with integer fields [oldId] and [newId],
    pretty-printed with 2-space indentation", in insertion order. *)

Definition quoted (s : string) : string :=
  String dquote (s +:+ String dquote EmptyString).

Definition nl : string := String newline EmptyString.

Definition render_mapping (p : Z * Z) : string :=
  "  {" +:+ nl
  +:+ "    " +:+ quoted "oldId" +:+ ": " +:+ str_of_int (fst p) +:+ "," +:+ nl
  +:+ "    " +:+ quoted "newId" +:+ ": " +:+ str_of_int (snd p) +:+ nl
  +:+ "  }".

Definition render_map (l : list (Z * Z)) : string :=
  match l with
  | [] => "[]"
  | _ => "[" +:+ nl +:+ join ("," +:+ nl) (map render_mapping l) +:+ nl +:+ "]"
  end.

(** A non-empty run of the characters [0-9]. *)
Definition is_decimal_str (s : string) : bool :=
  str_truthy s && str_forall is_decimal_char s.

(** A decimal digit string or an integer. *)
Definition digits_or_int (v : json) : bool :=
  match v with
  | JInt _ => true
  | JStr s => is_decimal_str s
  | _ => false
  end.

(** The number a text of the digits [0-9] denotes in base ten. *)
Definition decimal_value (s : string) : Z :=
  fold_left (fun acc c => 10 * acc + (Z.of_nat (code c) - 48))
    (list_ascii_of_string s) 0.

(** The integer a member of a pair stands for: itself, or the number its
    digits denote. *)
Definition int_value (v : json) : Z :=
  match v with
  | JInt z => z
  | JStr s => decimal_value s
  | _ => 0
  end.

Definition int_values (l : list (json * json)) : list (Z * Z) :=
  map (fun p => (int_value (fst p), int_value (snd p))) l.

(** What one run contributes to the list of pairs (lines 244-245 and
    276-277): the text that was processed with the value the run returned,
    when the run reports success with a true value. *)
Definition recorded_pair (s : string) (r : exn + bool * json)
  : list (json * json) :=
  match r with
  | inr (true, v) => if truthy v then [(JStr s, v)] else []
  | _ => []
  end.

(** [int] turns the members of the pairs [l] into the integers [zs]. *)
Definition coerced (l : list (json * json)) (zs : list (Z * Z)) : Prop :=
  Forall2 (fun p z => py_int (fst p) = inr (fst z) /\ py_int (snd p) = inr (snd z))
    l zs.

(** A pair as the session loops record it: the old identifier is the text
    that was processed, accepted by [isdigit]; the new one is the true
    value that the run on this text returned with its success. *)
Definition recorded_by (cfg : config) (nets : nat -> transport)
    (p : json * json) : Prop :=
  exists s k dname ddesc atype,
    fst p = JStr s /\ isdigit s = true
    /\ outcome (process_reupload cfg (nets k) s dname ddesc atype)
       = inr (true, snd p)
    /\ truthy (snd p) = true.

(** A mapping of the persisted map that stems from a run: [oldId] is what
    [int] makes of the digit text [s] that was processed, the number its
    digits denote; [newId] is what [int] makes of the true value [v] that
    the run returned with its success. *)
Definition mapping_of_run (cfg : config) (nets : nat -> transport)
    (z : Z * Z) : Prop :=
  exists s v k dname ddesc atype,
    isdigit s = true
    /\ outcome (process_reupload cfg (nets k) s dname ddesc atype)
       = inr (true, v)
    /\ truthy v = true
    /\ int_of_str s = Some (fst z) /\ fst z = decimal_value s /\ 0 <= fst z
    /\ py_int v = inr (snd z).

(** What a session loop guarantees: every file content it writes is one
    that [save_id_map] writes for pairs recorded from runs, and the list it
    returns holds pairs recorded from runs. *)
Definition session_ok (cfg : config) (nets : nat -> transport)
    (io_error : option io_failure) (m : M (list (json * json))) : Prop :=
  (forall name content,
     In (name, content) (written (events m)) ->
     exists pairs, Forall (recorded_by cfg nets) pairs
       /\ In (name, content) (written (events (save_id_map io_error pairs))))
  /\ (forall pairs, outcome m = inr pairs -> Forall (recorded_by cfg nets) pairs).

(** ** The stages a run of the pipeline reaches *)

Section Stages.
Context (cfg : config) (net : transport) (asset_id dname ddesc atype : string).

(** The identifier passed [int] and the download returned [data]. *)
Definition fetched (data : downloaded) : Prop :=
  exists i, int_of_str asset_id = Some i
            /\ outcome (download_asset cfg net i) = inr (inr data).

(** The identifier passed [int] and the download failed with [msg]. *)
Definition fetch_failed (msg : string) : Prop :=
  exists i, int_of_str asset_id = Some i
            /\ outcome (download_asset cfg net i) = inr (inl msg).

(** The identifier passed [int] and the download raised [e]. *)
Definition fetch_raised (e : exn) : Prop :=
  exists i, int_of_str asset_id = Some i
            /\ outcome (download_asset cfg net i) = inl e.

(** The download succeeded and the upload returned the JSON value [res]. *)
Definition published (res : json) : Prop :=
  exists data, fetched data
    /\ outcome (upload_asset cfg net (bytes data) (filename data)
                  dname ddesc atype) = inr (inr res).

(** The download succeeded and the upload failed with [msg]. *)
Definition publish_failed (msg : string) : Prop :=
  exists data, fetched data
    /\ outcome (upload_asset cfg net (bytes data) (filename data)
                  dname ddesc atype) = inr (inl msg).
End Stages.

(** ** Further observations, for the properties of the second part *)

(** A printable ASCII character. *)
Definition printable (c : ascii) : bool :=
  (32 <=? code c)%nat && (code c <=? 126)%nat.

Definition first_char (s : string) : option ascii :=
  match s with
  | EmptyString => None
  | String c _ => Some c
  end.

Fixpoint last_char (s : string) : option ascii :=
  match s with
  | EmptyString => None
  | String c EmptyString => Some c
  | String _ s' => last_char s'
  end.

(** The characters the [strip] of line 96 removes: the space and the
    double quote. *)
Definition space_or_quote : string := String " " (String dquote EmptyString).

(** The [request] part of the upload (lines 112-119). *)
Definition upload_request_part (display_name description asset_type : string)
  : string :=
  json_dumps None
    (JDict [
       ("assetType", JStr (if str_truthy asset_type then asset_type else "Model"));
       ("displayName", JStr display_name);
       ("description", JStr description);
       ("creationContext", JDict [])]).

(** The answer to the POST that [upload_asset] sends. *)
Definition upload_answer (cfg : config) (net : transport)
    (file_bytes filename display_name description asset_type : string)
  : string + response :=
  requests_post net (upload_endpoint cfg) (build_headers cfg)
    (upload_request_part display_name description asset_type)
    filename file_bytes (guess_mime_from_name net filename).

(** The identifiers a trace requests for download, in order. *)
Definition fetched_ids (t : list event) : list Z :=
  omap (fun e => match e with HttpGet _ i _ => Some i | _ => None end) t.


(** The property [prop] contributes the identifier [s]: it carries the
    marker, and its text is not empty and is, once the scheme is removed, the
    digit text [s]. *)
Definition contributes (prop : element) (s : string) : Prop :=
  has_marker prop = true
  /\ exists value,
       el_text prop = Some value /\ str_truthy value = true
       /\ s = str_replace scheme EmptyString value /\ isdigit s = true.

(** One of the superscript digits U+00B2, U+00B3, U+00B9. *)
Definition is_superscript_char (c : ascii) : bool :=
  (code c =? 178)%nat || (code c =? 179)%nat || (code c =? 185)%nat.

Fixpoint str_exists (p : ascii -> bool) (s : string) : bool :=
  match s with
  | EmptyString => false
  | String c s' => p c || str_exists p s'
  end.

(** ** Config loading (lines 28-44) *)

(** [DEFAULT_CFG] as the dictionary the script holds. *)
Definition DEFAULT_CFG_dict : list (string * json) :=
  [("x_api_key", JNull);
   ("roblosecurity", JNull);
   ("download_endpoint",
    JStr "https://apis.roblox.com/asset-delivery-api/v1/assetId/{assetId}");
   ("upload_endpoint", JStr "https://apis.roblox.com/assets/v1/assets")].

(** [d[key] = v]: the value of an existing key is replaced in place, a new
    key goes to the end. *)
Fixpoint dict_set (key : string) (v : json) (d : list (string * json))
  : list (string * json) :=
  match d with
  | [] => [(key, v)]
  | (k, v') :: d' =>
      if String.eqb k key then (k, v) :: d' else (k, v') :: dict_set key v d'
  end.

(** The dictionary display with two unpackings: the entries of [a], then
    those of [b] set one after the other. *)
Definition dict_merge (a b : list (string * json)) : list (string * json) :=
  fold_left (fun acc kv => dict_set (fst kv) (snd kv) acc) b a.

(** What the script finds at [CFG_PATH]: no file (with the answer of the
    second [exists] test), a file whose reading or parsing raises, or the
    parsed JSON value. *)
Inductive cfg_file :=
| Missing (still_missing : bool)
| Unreadable (e : exn)
| Parsed (v : json).

(** Lines 36-44: the value of [cfg] after the module is loaded. *)
Definition load_cfg (file : cfg_file) : M (list (string * json)) :=
  cfg ← match file with
        | Parsed v => mret v
        | Unreadable e => raise e
        | Missing still_missing =>
            (if still_missing then
               emit (WriteFile "config.json"
                       (json_dumps (Some 2%nat) (JDict DEFAULT_CFG_dict)));;
               print [Txt "[INFO] Created example config.json at ";
                      Txt "config.json";
                      Txt ". Edit it to add your x_api_key or roblosecurity."];;
               print [Txt "Edit config.json and add your credentials, then re-run this script."]
             else mret tt);;
            mret (JDict DEFAULT_CFG_dict)
        end;
  match (if truthy cfg then cfg else JDict []) with
  | JDict d => mret (dict_merge DEFAULT_CFG_dict d)
  | _ => raise TypeError
  end.

(** * Properties *)

(** ** The monad *)

Lemma bind_events {A B : Type} (m : M A) (k : A -> M B) :
  events (m ≫= k)
  = (events m ++ match outcome m with
                 | inl _ => []
                 | inr a => events (k a)
                 end)%list.
Proof.
  destruct m as [t [e|a]]; simpl; [now rewrite app_nil_r|].
  destruct (k a); reflexivity.
Qed.

Lemma bind_outcome {A B : Type} (m : M A) (k : A -> M B) :
  outcome (m ≫= k)
  = match outcome m with
    | inl e => inl e
    | inr a => outcome (k a)
    end.
Proof.
  destruct m as [t [e|a]]; simpl; [reflexivity|].
  destruct (k a); reflexivity.
Qed.

Lemma calls_app t1 t2 : calls (t1 ++ t2) = (calls t1 ++ calls t2)%list.
Proof. apply List.filter_app. Qed.

Lemma sleeps_app t1 t2 : sleeps (t1 ++ t2) = (sleeps t1 ++ sleeps t2)%list.
Proof. apply List.filter_app. Qed.

(** Runs the monad's plumbing, leaving the script's own functions folded. *)
Ltac run_m :=
  repeat first
    [ rewrite bind_events
    | rewrite bind_outcome
    | rewrite calls_app
    | rewrite sleeps_app
    | progress cbn [mret M_ret print emit lift raise fst snd app
                    outcome events calls sleeps List.filter is_network
                    is_sleep length] ].

(** ** The pipeline, stage by stage *)

Section Runs.
Context (cfg : config) (net : transport) (asset_id dname ddesc atype : string).

Local Abbreviation run := (process_reupload cfg net asset_id dname ddesc atype).

(** The download makes its one request unless building the URL raises. *)
Lemma download_asset_events i :
  events (download_asset cfg net i)
  = match requests_get net (download_endpoint cfg) i (build_headers cfg) with
    | inl _ => []
    | inr _ => [HttpGet (download_endpoint cfg) i (build_headers cfg)]
    end.
Proof.
  unfold download_asset.
  destruct (requests_get net _ _ _) as [e|[msg|r]]; [reflexivity|reflexivity|].
  destruct (400 <=? status_code r); [destruct (text_raises r); reflexivity|].
  destruct (content r); reflexivity.
Qed.

(** A download that returns has made exactly its one request. *)
Lemma download_asset_returned i res :
  outcome (download_asset cfg net i) = inr res ->
  events (download_asset cfg net i)
  = [HttpGet (download_endpoint cfg) i (build_headers cfg)].
Proof.
  rewrite download_asset_events. unfold download_asset.
  destruct (requests_get net _ _ _) as [e|a]; [discriminate|reflexivity].
Qed.

Lemma upload_asset_events file_bytes fname :
  exists request_part mime,
    events (upload_asset cfg net file_bytes fname dname ddesc atype)
    = [HttpPost (upload_endpoint cfg) (build_headers cfg) request_part fname
         file_bytes mime].
Proof.
  unfold upload_asset. do 2 eexists.
  destruct (requests_post net _ _ _ _ _ _) as [e|r]; [reflexivity|].
  destruct (400 <=? status_code r); [reflexivity|].
  destruct (json_body r); reflexivity.
Qed.

Lemma upload_asset_returns file_bytes fname :
  exists r,
    outcome (upload_asset cfg net file_bytes fname dname ddesc atype) = inr r.
Proof.
  unfold upload_asset.
  destruct (requests_post net _ _ _ _ _ _) as [e|r]; [eexists; reflexivity|].
  destruct (400 <=? status_code r); [eexists; reflexivity|].
  destruct (json_body r); eexists; reflexivity.
Qed.

(** An identifier [int] rejects: one line is printed, nothing else. *)
Lemma run_invalid :
  int_of_str asset_id = None ->
  outcome run = inr (false, JNull) /\ calls (events run) = []
  /\ sleeps (events run) = [].
Proof.
  intros H. unfold process_reupload. rewrite H. repeat split.
Qed.

(** Whenever [int] accepts the identifier, the download is called: either
    building its URL raises, and the run ends with that exception before any
    request, or the download is requested. *)
Lemma run_valid_fetches i :
  int_of_str asset_id = Some i ->
  match requests_get net (download_endpoint cfg) i (build_headers cfg) with
  | inl e => outcome run = inl e /\ calls (events run) = []
  | inr _ => head (calls (events run))
             = Some (HttpGet (download_endpoint cfg) i (build_headers cfg))
  end.
Proof.
  intros H. unfold process_reupload. rewrite H.
  pose proof (download_asset_events i) as He.
  destruct (requests_get net _ _ _) as [e|a] eqn:Hg.
  - run_m. rewrite He. unfold download_asset. rewrite Hg. split; reflexivity.
  - run_m. rewrite He. reflexivity.
Qed.

Lemma run_fetch_failed msg :
  fetch_failed cfg net asset_id msg ->
  outcome run = inr (false, JNull) /\ length (calls (events run)) = 1%nat
  /\ sleeps (events run) = [].
Proof.
  intros (i & Hi & Hd). unfold process_reupload. rewrite Hi.
  pose proof (download_asset_returned i _ Hd) as He.
  destruct (download_asset cfg net i) as [t r]; simpl in *; subst t r.
  repeat split.
Qed.

(** Where a download can raise: while the URL is built, before the request,
    or while the text of a refusal is read, after it. *)
Lemma download_asset_raises i e :
  outcome (download_asset cfg net i) = inl e ->
  (requests_get net (download_endpoint cfg) i (build_headers cfg) = inl e
   /\ events (download_asset cfg net i) = [])
  \/ (exists r,
        requests_get net (download_endpoint cfg) i (build_headers cfg)
        = inr (inr r)
        /\ 400 <= status_code r /\ text_raises r = Some e
        /\ events (download_asset cfg net i)
           = [HttpGet (download_endpoint cfg) i (build_headers cfg)]).
Proof.
  unfold download_asset.
  destruct (requests_get net _ _ _) as [e'|[msg|r]].
  - intros [= <-]. now left.
  - discriminate.
  - destruct (400 <=? status_code r) eqn:Hs.
    + destruct (text_raises r) as [e'|] eqn:Ht; [|discriminate].
      intros [= <-]. right. exists r.
      split; [reflexivity|split; [now apply Z.leb_le|split; [exact Ht|reflexivity]]].
    + destruct (content r); discriminate.
Qed.

(** A download that raises ends the run with its exception. *)
Lemma run_fetch_raised e :
  fetch_raised cfg net asset_id e ->
  outcome run = inl e
  /\ (exists i, int_of_str asset_id = Some i
       /\ calls (events run) = calls (events (download_asset cfg net i)))
  /\ sleeps (events run) = [].
Proof.
  intros (i & Hi & Hd). unfold process_reupload. rewrite Hi.
  repeat (run_m; rewrite ?Hd).
  split; [reflexivity|]. split.
  - exists i. split; [reflexivity|]. now rewrite app_nil_r.
  - destruct (download_asset_raises i e Hd) as [(_ & ->)|(r & _ & _ & _ & ->)];
      reflexivity.
Qed.

Lemma run_publish_failed msg :
  publish_failed cfg net asset_id dname ddesc atype msg ->
  outcome run = inr (false, JNull) /\ length (calls (events run)) = 2%nat
  /\ sleeps (events run) = [].
Proof.
  intros (data & (i & Hi & Hd) & Hu). unfold process_reupload. rewrite Hi.
  pose proof (download_asset_returned i _ Hd) as He.
  destruct (download_asset cfg net i) as [t r]; simpl in He, Hd; subst t r.
  destruct (upload_asset_events (bytes data) (filename data))
    as (rp & mime & Hue).
  cbn [mbind M_bind fst snd].
  destruct (upload_asset cfg net (bytes data) (filename data) dname ddesc atype)
    as [t r]; simpl in Hue, Hu; subst t r.
  repeat split.
Qed.

(** After a successful upload the run is decided by the lookup of the new
    identifier: an exception of the lookup leaves the run, a true value is
    returned, any other value is a failure; the last two pause first. *)
Lemma run_published res :
  published cfg net asset_id dname ddesc atype res ->
  outcome run
  = match new_id_of res with
    | inl e => inl e
    | inr new_id => if truthy new_id then inr (true, new_id) else inr (false, JNull)
    end
  /\ sleeps (events run)
     = match new_id_of res with inl _ => [] | inr _ => [Sleep 1] end
  /\ last (events run)
     = match new_id_of res with
       | inl _ => last (events run)
       | inr _ => Some (Sleep 1)
       end
  /\ length (calls (events run)) = 2%nat
  /\ (forall new_id, new_id_of res = inr new_id -> truthy new_id = false ->
      In (Print [Txt (json_dumps (Some 2%nat) res)]) (events run)).
Proof.
  intros (data & (i & Hi & Hd) & Hu). unfold process_reupload. rewrite Hi.
  pose proof (download_asset_returned i _ Hd) as He.
  destruct (upload_asset_events (bytes data) (filename data))
    as (rp & mime & Hue).
  repeat (run_m; rewrite ?He, ?Hd, ?Hue, ?Hu).
  destruct (new_id_of res) as [e|v]; [|destruct (truthy v) eqn:Hv];
    repeat (run_m; rewrite ?Hv).
  all: repeat split; try reflexivity; intros new_id [= <-] Hf; try congruence.
  cbn [In]. do 8 right. left. reflexivity.
Qed.
End Runs.

(** ** The canned transports reach the stages they are named after *)

Lemma publishing_published cfg res asset_id dname ddesc atype i :
  int_of_str asset_id = Some i ->
  published cfg (publishing res) asset_id dname ddesc atype res.
Proof.
  intros Hi. eexists. split; [exists i; split; [exact Hi|reflexivity]|reflexivity].
Qed.

Lemma new_id_of_dict d :
  new_id_of (JDict d)
  = if truthy (py_get "assetId" d) then inr (py_get "assetId" d)
    else if truthy (py_get "id" d) then inr (py_get "id" d)
    else attr_get (default (JDict []) (dict_get "data" d)) "assetId".
Proof. reflexivity. Qed.

Lemma py_get_some key d v : dict_get key d = Some v -> py_get key d = v.
Proof. unfold py_get. now intros ->. Qed.

(** ** Resolution of the new identifier *)

(** C1 (as stated, refuted): with the publish response
    [{"assetId": 0, "id": 5}] the first present value is [0], yet the run
    resolves [5]. *)
Lemma first_present_value_does_not_win :
  first_present [("assetId", JInt 0); ("id", JInt 5)] = Some (JInt 0)
  /\ outcome (process_reupload DEFAULT_CFG
                (publishing (JDict [("assetId", JInt 0); ("id", JInt 5)]))
                "123" "name" EmptyString "Model")
     = inr (true, JInt 5).
Proof. split; reflexivity. Qed.

(** C1 (amended): after a successful publish that returned the JSON object
    [d], the new identifier is the first value, among the top-level
    [assetId], the top-level [id] and the nested [data.assetId], that is
    true in Python's sense; values that are present but false (0, the empty
    string, null, ...) are passed over.  In particular [{"assetId": 999}]
    resolves to 999, [{"id": 5}] to 5 and [{"data": {"assetId": 7}}] to 7. *)
Theorem new_id_first_true_value_wins cfg net asset_id dname ddesc atype d :
  published cfg net asset_id dname ddesc atype (JDict d) ->
  (forall v, dict_get "assetId" d = Some v -> truthy v = true ->
     outcome (process_reupload cfg net asset_id dname ddesc atype) = inr (true, v))
  /\ (forall v, truthy (py_get "assetId" d) = false ->
        dict_get "id" d = Some v -> truthy v = true ->
        outcome (process_reupload cfg net asset_id dname ddesc atype) = inr (true, v))
  /\ (forall dd v, truthy (py_get "assetId" d) = false ->
        truthy (py_get "id" d) = false ->
        dict_get "data" d = Some (JDict dd) ->
        dict_get "assetId" dd = Some v -> truthy v = true ->
        outcome (process_reupload cfg net asset_id dname ddesc atype) = inr (true, v))
  /\ (d = [("assetId", JInt 999)] ->
      outcome (process_reupload cfg net asset_id dname ddesc atype)
      = inr (true, JInt 999))
  /\ (d = [("id", JInt 5)] ->
      outcome (process_reupload cfg net asset_id dname ddesc atype)
      = inr (true, JInt 5))
  /\ (d = [("data", JDict [("assetId", JInt 7)])] ->
      outcome (process_reupload cfg net asset_id dname ddesc atype)
      = inr (true, JInt 7)).
Proof.
  intros Hp. destruct (run_published _ _ _ _ _ _ _ Hp) as (Ho & _).
  rewrite Ho, new_id_of_dict. clear Ho Hp.
  repeat split.
  - intros v Ha Hv. rewrite (py_get_some _ _ _ Ha), Hv. cbn iota. now rewrite Hv.
  - intros v Ha Hb Hv. rewrite Ha, (py_get_some _ _ _ Hb), Hv. cbn iota.
    now rewrite Hv.
  - intros dd v Ha Hb Hd Hdd Hv. rewrite Ha, Hb, Hd. cbn [default attr_get from_option].
    cbn [id attr_get]. rewrite (py_get_some _ _ _ Hdd), Hv. reflexivity.
  - intros ->. reflexivity.
  - intros ->. reflexivity.
  - intros ->. reflexivity.
Qed.

Lemma new_id_first_true_value_wins_witness :
  outcome (process_reupload DEFAULT_CFG
             (publishing (JDict [("assetId", JInt 999); ("id", JInt 5)]))
             "123" "name" EmptyString "Model")
  = inr (true, JInt 999)
  /\ outcome (process_reupload DEFAULT_CFG
                (publishing (JDict [("assetId", JStr EmptyString); ("id", JInt 5)]))
                "123" "name" EmptyString "Model")
     = inr (true, JInt 5)
  /\ outcome (process_reupload DEFAULT_CFG
                (publishing (JDict [("assetId", JNull);
                                    ("data", JDict [("assetId", JInt 7)])]))
                "123" "name" EmptyString "Model")
     = inr (true, JInt 7).
Proof.
  assert (forall res,
            published DEFAULT_CFG (publishing res) "123" "name" EmptyString
              "Model" res) as Hp.
  { intros res. exists {| bytes := "payload"; filename := "asset_123.bin" |}.
    split; [exists 123; split; reflexivity | reflexivity]. }
  split; [|split].
  - apply (proj1 (new_id_first_true_value_wins DEFAULT_CFG _ "123" "name"
                    EmptyString "Model" _ (Hp _)) (JInt 999)); reflexivity.
  - apply (proj1 (proj2 (new_id_first_true_value_wins DEFAULT_CFG _ "123" "name"
                           EmptyString "Model" _ (Hp _))) (JInt 5)); reflexivity.
  - apply (proj1 (proj2 (proj2 (new_id_first_true_value_wins DEFAULT_CFG _ "123"
                                  "name" EmptyString "Model" _ (Hp _))))
             [("assetId", JInt 7)] (JInt 7)); reflexivity.
Defined.

(** ** Validation of the identifier *)

(** C2 (as stated, refuted): the identifiers [0] and [-5] are not positive,
    yet the run requests the download for them. *)
Lemma non_positive_identifier_is_fetched :
  calls (events (process_reupload DEFAULT_CFG fetch_refused "0"
                   "name" EmptyString "Model"))
  = [HttpGet (download_endpoint DEFAULT_CFG) 0 (build_headers DEFAULT_CFG)]
  /\ calls (events (process_reupload DEFAULT_CFG fetch_refused "-5"
                      "name" EmptyString "Model"))
     = [HttpGet (download_endpoint DEFAULT_CFG) (-5) (build_headers DEFAULT_CFG)].
Proof. split; reflexivity. Qed.

(** C2 (amended): for every identifier input that [int] rejects (text that
    is not a number, such as [12a4], or digits behind a separator of
    U+001C..U+001F, which [int] does not strip), the run returns the failure
    [(False, None)] without any network call; an input [int] accepts, zero
    and negative numbers included, is passed on to the download, whose
    request is then the run's first network call, unless building the URL
    from the configured endpoint raises, which ends the run with that
    exception before any network call. *)
Theorem invalid_identifier_no_network cfg net asset_id dname ddesc atype :
  (int_of_str asset_id = None ->
   outcome (process_reupload cfg net asset_id dname ddesc atype)
   = inr (false, JNull)
   /\ calls (events (process_reupload cfg net asset_id dname ddesc atype)) = [])
  /\ (forall i, int_of_str asset_id = Some i ->
      match requests_get net (download_endpoint cfg) i (build_headers cfg) with
      | inl e =>
          outcome (process_reupload cfg net asset_id dname ddesc atype) = inl e
          /\ calls (events (process_reupload cfg net asset_id dname ddesc atype))
             = []
      | inr _ =>
          head (calls (events (process_reupload cfg net asset_id dname ddesc atype)))
          = Some (HttpGet (download_endpoint cfg) i (build_headers cfg))
      end).
Proof.
  split.
  - intros H. destruct (run_invalid cfg net asset_id dname ddesc atype H)
      as (Ho & Hc & _). now split.
  - intros i H. now apply run_valid_fetches.
Qed.

Lemma invalid_identifier_no_network_witness :
  (outcome (process_reupload DEFAULT_CFG (publishing JNull) "12a4"
              "name" EmptyString "Model") = inr (false, JNull)
   /\ calls (events (process_reupload DEFAULT_CFG (publishing JNull) "12a4"
                       "name" EmptyString "Model")) = [])
  /\ (outcome (process_reupload DEFAULT_CFG (publishing JNull)
                 (String "028" "12") "name" EmptyString "Model")
      = inr (false, JNull)
      /\ calls (events (process_reupload DEFAULT_CFG (publishing JNull)
                          (String "028" "12") "name" EmptyString "Model")) = [])
  /\ head (calls (events (process_reupload DEFAULT_CFG (publishing JNull) "-5"
                            "name" EmptyString "Model")))
     = Some (HttpGet (download_endpoint DEFAULT_CFG) (-5)
               (build_headers DEFAULT_CFG))
  /\ (outcome (process_reupload DEFAULT_CFG bad_endpoint " 12 "
                 "name" EmptyString "Model") = inl (OtherError "KeyError")
      /\ calls (events (process_reupload DEFAULT_CFG bad_endpoint " 12 "
                          "name" EmptyString "Model")) = []).
Proof.
  split; [|split; [|split]].
  - apply (proj1 (invalid_identifier_no_network DEFAULT_CFG (publishing JNull)
                    "12a4" "name" EmptyString "Model")).
    reflexivity.
  - apply (proj1 (invalid_identifier_no_network DEFAULT_CFG (publishing JNull)
                    (String "028" "12") "name" EmptyString "Model")).
    reflexivity.
  - apply (proj2 (invalid_identifier_no_network DEFAULT_CFG (publishing JNull)
                    "-5" "name" EmptyString "Model") (-5)).
    reflexivity.
  - apply (proj2 (invalid_identifier_no_network DEFAULT_CFG bad_endpoint
                    " 12 " "name" EmptyString "Model") 12).
    reflexivity.
Defined.

(** ** The failure results *)




(** ** The pause *)

(** C5 (as stated, refuted): with the publish response [{"foo": "bar"}] the
    run fails for want of an identifier, and it has paused one second. *)
Lemma not_found_path_pauses :
  outcome (process_reupload DEFAULT_CFG (publishing (JDict [("foo", JStr "bar")]))
             "123" "name" EmptyString "Model")
  = inr (false, JNull)
  /\ sleeps (events (process_reupload DEFAULT_CFG
                       (publishing (JDict [("foo", JStr "bar")]))
                       "123" "name" EmptyString "Model"))
     = [Sleep 1].
Proof. split; reflexivity. Qed.

(** C5 (amended): the fixed 1-second pause is imposed once, as the last
    action before returning, on every run whose publish succeeded and whose
    lookup of the new identifier returned: on the successful path and on the
    path that finds no identifier.  It is not imposed when the identifier
    is invalid, when the download fails or when the upload fails. *)
Theorem pause_follows_successful_publish cfg net asset_id dname ddesc atype :
  (forall res new_id,
     published cfg net asset_id dname ddesc atype res ->
     new_id_of res = inr new_id ->
     sleeps (events (process_reupload cfg net asset_id dname ddesc atype))
     = [Sleep 1]
     /\ last (events (process_reupload cfg net asset_id dname ddesc atype))
        = Some (Sleep 1))
  /\ (int_of_str asset_id = None ->
      sleeps (events (process_reupload cfg net asset_id dname ddesc atype)) = [])
  /\ (forall msg, fetch_failed cfg net asset_id msg ->
      sleeps (events (process_reupload cfg net asset_id dname ddesc atype)) = [])
  /\ (forall msg, publish_failed cfg net asset_id dname ddesc atype msg ->
      sleeps (events (process_reupload cfg net asset_id dname ddesc atype)) = []).
Proof.
  split; [|split; [|split]].
  - intros res new_id Hp Hn.
    destruct (run_published _ _ _ _ _ _ _ Hp) as (_ & Hs & Hl & _).
    rewrite Hn in Hs, Hl. now split.
  - intros H. now destruct (run_invalid cfg net asset_id dname ddesc atype H)
      as (_ & _ & Hs).
  - intros msg Hf.
    now destruct (run_fetch_failed cfg net asset_id dname ddesc atype msg Hf)
      as (_ & _ & Hs).
  - intros msg Hf.
    now destruct (run_publish_failed cfg net asset_id dname ddesc atype msg Hf)
      as (_ & _ & Hs).
Qed.

Lemma pause_follows_successful_publish_witness :
  (sleeps (events (process_reupload DEFAULT_CFG
                     (publishing (JDict [("assetId", JInt 999)]))
                     "123" "name" EmptyString "Model")) = [Sleep 1]
   /\ last (events (process_reupload DEFAULT_CFG
                      (publishing (JDict [("assetId", JInt 999)]))
                      "123" "name" EmptyString "Model")) = Some (Sleep 1))
  /\ sleeps (events (process_reupload DEFAULT_CFG (publishing JNull) "12a4"
                       "name" EmptyString "Model")) = []
  /\ sleeps (events (process_reupload DEFAULT_CFG fetch_refused
                       "123" "name" EmptyString "Model")) = []
  /\ sleeps (events (process_reupload DEFAULT_CFG publish_refused
                       "123" "name" EmptyString "Model")) = [].
Proof.
  split; [|split; [|split]].
  - apply (proj1 (pause_follows_successful_publish DEFAULT_CFG
             (publishing (JDict [("assetId", JInt 999)]))
             "123" "name" EmptyString "Model")
             (JDict [("assetId", JInt 999)]) (JInt 999)); [|reflexivity].
    exists {| bytes := "payload"; filename := "asset_123.bin" |}.
    split; [exists 123; split; reflexivity | reflexivity].
  - apply (proj1 (proj2 (pause_follows_successful_publish DEFAULT_CFG
             (publishing JNull) "12a4" "name" EmptyString "Model"))).
    reflexivity.
  - apply (proj1 (proj2 (proj2 (pause_follows_successful_publish DEFAULT_CFG
             fetch_refused "123" "name" EmptyString "Model")))
             "Download failed 404: denied").
    exists 123. split; reflexivity.
  - apply (proj2 (proj2 (proj2 (pause_follows_successful_publish DEFAULT_CFG
             publish_refused "123" "name" EmptyString "Model")))
             "Upload failed 500: denied").
    exists {| bytes := "payload"; filename := "asset_123.bin" |}.
    split; [exists 123; split; reflexivity | reflexivity].
Defined.

(** ** Exceptions of the lookup *)

(** After a successful publish whose JSON object has no true [assetId] and
    no true [id], a [data] entry that is not an object makes the lookup
    raise [AttributeError], which leaves [process_reupload]. *)
Lemma data_not_object_raises cfg net asset_id dname ddesc atype d v :
  published cfg net asset_id dname ddesc atype (JDict d) ->
  truthy (py_get "assetId" d) = false ->
  truthy (py_get "id" d) = false ->
  dict_get "data" d = Some v ->
  (forall dd, v <> JDict dd) ->
  outcome (process_reupload cfg net asset_id dname ddesc atype)
  = inl AttributeError.
Proof.
  intros Hp Ha Hb Hd Hv.
  destruct (run_published _ _ _ _ _ _ _ Hp) as (Ho & _).
  rewrite Ho, new_id_of_dict, Ha, Hb, Hd. cbn [default from_option id].
  destruct v; try reflexivity. now destruct (Hv fields).
Qed.

(** C6 (refuted on the code): the download succeeds, publish answers 200
    with the JSON object [{"data": null}], and the run ends in an uncaught
    [AttributeError] instead of returning a result. *)
Theorem publish_data_null_raises :
  outcome (process_reupload DEFAULT_CFG (publishing (JDict [("data", JNull)]))
             "123" "name" EmptyString "Model")
  = inl AttributeError.
Proof.
  apply data_not_object_raises with (d := [("data", JNull)]) (v := JNull);
    try reflexivity; [|discriminate].
  now apply publishing_published with (i := 123).
Qed.

(** ** The persisted map *)

Lemma str_app_cons (x : ascii) (a b : string) :
  String x a +:+ b = String x (a +:+ b).
Proof. reflexivity. Qed.

Lemma str_app_assoc (a b c : string) : (a +:+ b) +:+ c = a +:+ (b +:+ c).
Proof.
  induction a as [|x a IH]; [reflexivity|].
  rewrite !str_app_cons. now f_equal.
Qed.

Lemma str_app_nil_r (a : string) : a +:+ EmptyString = a.
Proof.
  induction a as [|x a IH]; [reflexivity|].
  rewrite str_app_cons. now f_equal.
Qed.

(** Putting [pre] before every item is the same as joining with a
    separator that ends in [pre]. *)
Lemma join_indent (sep pre : string) (items : list string) :
  items <> [] ->
  pre +:+ join (sep +:+ pre) items = join sep (map (String.app pre) items).
Proof.
  induction items as [|x [|y items] IH]; intros Hne.
  - now destruct Hne.
  - reflexivity.
  - change (join (sep +:+ pre) (x :: y :: items))
      with (x +:+ (sep +:+ pre) +:+ join (sep +:+ pre) (y :: items)).
    change (join sep (map (String.app pre) (x :: y :: items)))
      with ((pre +:+ x) +:+ sep +:+ join sep (map (String.app pre) (y :: items))).
    rewrite <- IH by discriminate.
    now rewrite !str_app_assoc.
Qed.

Lemma dumps_mapping (p : Z * Z) :
  "  " +:+ dumps_at (Some 2%nat) 1
              (JDict [("oldId", JInt (fst p)); ("newId", JInt (snd p))])
  = render_mapping p.
Proof.
  unfold render_mapping. cbv -[str_of_int String.append].
  rewrite !str_app_assoc. reflexivity.
Qed.

Lemma dumps_int_pairs (l : list (Z * Z)) :
  json_dumps (Some 2%nat)
    (JList (map (fun p => JDict [("oldId", JInt (fst p)); ("newId", JInt (snd p))]) l))
  = render_map l.
Proof.
  destruct l as [|p l]; [reflexivity|].
  unfold json_dumps, render_map. cbn [dumps_at]. rewrite map_map.
  set (items := map _ (p :: l)).
  change (bracket (Some 2%nat) 0 "[" "]" items)
    with ("[" +:+ nl +:+ ("  " +:+ join (("," +:+ nl) +:+ "  ") items)
          +:+ nl +:+ "]").
  rewrite join_indent by discriminate.
  subst items. rewrite map_map.
  erewrite map_ext; [reflexivity | intros q; apply dumps_mapping].
Qed.

(** ** [int] on digit strings *)

Lemma digit_value_nonneg c : is_decimal_char c = true -> 0 <= digit_value c.
Proof.
  unfold is_decimal_char, digit_value. intros H.
  apply andb_true_iff in H as [H _]. apply Nat.leb_le in H. lia.
Qed.

Lemma int_digits_nonneg s : forall acc after_us z,
  0 <= acc -> int_digits acc after_us s = Some z -> 0 <= z.
Proof.
  induction s as [|c s IH]; intros acc after_us z Hacc; cbn [int_digits].
  - destruct after_us; [discriminate|]. now intros [= <-].
  - destruct (is_decimal_char c) eqn:Hc.
    + apply IH. pose proof (digit_value_nonneg c Hc). lia.
    + destruct (code c =? 95)%nat; [|discriminate].
      destruct after_us; [discriminate|]. now apply IH.
Qed.

(** [int] never yields a negative number for a text without sign. *)
Lemma int_unsigned_nonneg s z : int_unsigned s = Some z -> 0 <= z.
Proof.
  destruct s as [|c s]; [discriminate|]. cbn [int_unsigned].
  destruct (is_decimal_char c) eqn:Hc; [|discriminate].
  apply int_digits_nonneg. now apply digit_value_nonneg.
Qed.

Lemma isdigit_char_not_space c : isdigit_char c = true -> int_space_char c = false.
Proof.
  destruct c as [[] [] [] [] [] [] [] []]; vm_compute; congruence.
Qed.

Lemma decimal_isdigit_char c : is_decimal_char c = true -> isdigit_char c = true.
Proof. unfold isdigit_char. now intros ->. Qed.

Lemma lstrip_by_id p s :
  match s with EmptyString => True | String c _ => p c = false end ->
  lstrip_by p s = s.
Proof. destruct s as [|c s]; [reflexivity|]. cbn [lstrip_by]. now intros ->. Qed.

Lemma rstrip_by_id (p q : ascii -> bool) s :
  (forall c, q c = true -> p c = false) ->
  str_forall q s = true -> rstrip_by p s = s.
Proof.
  intros Hpq. induction s as [|c s IH]; [reflexivity|].
  cbn [str_forall rstrip_by]. intros H. apply andb_true_iff in H as [Hc Hs].
  rewrite (IH Hs). destruct s; [|reflexivity]. now rewrite (Hpq c Hc).
Qed.

(** White space is stripped from a text of digits to no effect. *)
Lemma strip_space_isdigit s :
  str_forall isdigit_char s = true -> strip_by int_space_char s = s.
Proof.
  intros H. unfold strip_by. rewrite lstrip_by_id.
  - now apply (rstrip_by_id _ isdigit_char); [apply isdigit_char_not_space|].
  - destruct s as [|c s]; [exact I|]. cbn [str_forall] in H.
    apply andb_true_iff in H as [Hc _]. now apply isdigit_char_not_space.
Qed.

Lemma sign_dispatch c s :
  isdigit_char c = true ->
  match String c s with
  | String "+" t => int_unsigned t
  | String "-" t => Z.opp <$> int_unsigned t
  | t => int_unsigned t
  end = int_unsigned (String c s).
Proof.
  destruct c as [[] [] [] [] [] [] [] []]; try reflexivity; vm_compute; discriminate.
Qed.

(** On a text [isdigit] accepts, [int] reads the digits without sign. *)
Lemma int_of_str_isdigit s :
  isdigit s = true -> int_of_str s = int_unsigned s.
Proof.
  destruct s as [|c s]; [discriminate|]. unfold isdigit. intros H.
  unfold int_of_str. rewrite (strip_space_isdigit _ H).
  cbn [str_forall] in H. apply andb_true_iff in H as [Hc _].
  now apply sign_dispatch.
Qed.

Lemma int_of_str_isdigit_nonneg s z :
  isdigit s = true -> int_of_str s = Some z -> 0 <= z.
Proof.
  intros H. rewrite (int_of_str_isdigit _ H). apply int_unsigned_nonneg.
Qed.

Lemma superscript_not_underscore c :
  isdigit_char c = true -> is_decimal_char c = false -> (code c =? 95)%nat = false.
Proof.
  destruct c as [[] [] [] [] [] [] [] []]; vm_compute; congruence.
Qed.

Lemma int_digits_isdigit s : forall acc,
  str_forall isdigit_char s = true ->
  is_Some (int_digits acc false s) <-> str_forall is_decimal_char s = true.
Proof.
  induction s as [|c s IH]; intros acc; cbn [str_forall int_digits].
  - intros _. split; [reflexivity|]. intros _. now eexists.
  - intros [Hc Hs]%andb_true_iff. destruct (is_decimal_char c) eqn:Hd.
    + cbn [andb]. now apply IH.
    + rewrite (superscript_not_underscore _ Hc Hd). cbn [andb].
      split; [intros [z [=]]|discriminate].
Qed.

Lemma int_of_str_isdigit_some s :
  isdigit s = true ->
  is_Some (int_of_str s) <-> str_forall is_decimal_char s = true.
Proof.
  intros H. rewrite (int_of_str_isdigit _ H).
  destruct s as [|c s]; [discriminate H|]. unfold isdigit in H.
  cbn [str_forall] in H. apply andb_true_iff in H as [Hc Hs].
  cbn [int_unsigned str_forall]. destruct (is_decimal_char c); cbn [andb].
  - now apply int_digits_isdigit.
  - split; [intros [z [=]]|discriminate].
Qed.

Lemma decimal_isdigit s : is_decimal_str s = true -> isdigit s = true.
Proof.
  unfold is_decimal_str, isdigit. destruct s as [|c s]; [discriminate|].
  cbn [str_truthy andb]. generalize (String c s). clear.
  induction s as [|c s IH]; [reflexivity|]. cbn [str_forall].
  intros H. apply andb_true_iff in H as [Hc Hs].
  now rewrite (decimal_isdigit_char _ Hc), IH.
Qed.

(** On digits, [int] computes the number they denote in base ten. *)
Lemma int_digits_fold s : forall acc,
  str_forall is_decimal_char s = true ->
  int_digits acc false s
  = Some (fold_left (fun a c => 10 * a + (Z.of_nat (code c) - 48))
            (list_ascii_of_string s) acc).
Proof.
  induction s as [|c s IH]; intros acc H; cbn [int_digits list_ascii_of_string].
  - reflexivity.
  - cbn [str_forall] in H. apply andb_true_iff in H as [-> Hs].
    now rewrite (IH _ Hs).
Qed.

Lemma int_of_str_decimal_value s :
  is_decimal_str s = true -> int_of_str s = Some (decimal_value s).
Proof.
  intros H. rewrite (int_of_str_isdigit _ (decimal_isdigit _ H)).
  unfold is_decimal_str in H. destruct s as [|c s]; [discriminate|].
  cbn [str_truthy andb str_forall] in H. apply andb_true_iff in H as [Hc Hs].
  cbn [int_unsigned]. rewrite Hc, (int_digits_fold _ _ Hs).
  unfold decimal_value, digit_value. cbn [list_ascii_of_string fold_left].
  now rewrite Z.mul_0_r, Z.add_0_l.
Qed.

(** A text that [isdigit] and [int] both accept is made of [0-9]. *)
Lemma isdigit_int_decimal s o :
  isdigit s = true -> int_of_str s = Some o -> is_decimal_str s = true.
Proof.
  intros H Ho. unfold is_decimal_str.
  assert (is_Some (int_of_str s)) as Hsome by now exists o.
  apply (int_of_str_isdigit_some s H) in Hsome. rewrite Hsome.
  destruct s; [discriminate H|reflexivity].
Qed.

(** ** Coercion by [save_id_map] *)

Lemma map_data_of_coerced l zs :
  coerced l zs ->
  map_data_of l
  = inr (map (fun p => JDict [("oldId", JInt (fst p)); ("newId", JInt (snd p))]) zs).
Proof.
  induction 1 as [|[old new] [o n] l zs [Ho Hn] _ IH]; [reflexivity|].
  cbn [fst snd] in Ho, Hn. cbn [map_data_of map fst snd]. now rewrite Ho, Hn, IH.
Qed.

Lemma map_data_of_inv l data :
  map_data_of l = inr data ->
  exists zs, coerced l zs
    /\ data = map (fun p => JDict [("oldId", JInt (fst p)); ("newId", JInt (snd p))]) zs.
Proof.
  revert data. induction l as [|[old new] l IH]; intros data; cbn [map_data_of].
  - intros [= <-]. exists []. split; [constructor|reflexivity].
  - destruct (py_int old) as [e|o] eqn:Ho; [discriminate|].
    destruct (py_int new) as [e|n] eqn:Hn; [discriminate|].
    destruct (map_data_of l) as [e|tl]; [discriminate|].
    intros [= <-]. destruct (IH tl eq_refl) as (zs & Hzs & ->).
    exists ((o, n) :: zs). split; [|reflexivity].
    constructor; [now split|exact Hzs].
Qed.

(** What [save_id_map] writes when [int] accepts every member. *)
Lemma save_id_map_coerced l zs :
  coerced l zs ->
  outcome (save_id_map None l) = inr tt
  /\ written (events (save_id_map None l)) = [(map_filename, render_map zs)].
Proof.
  intros H. unfold save_id_map. rewrite (map_data_of_coerced _ _ H).
  run_m. rewrite dumps_int_pairs. now split.
Qed.

(** Whatever [save_id_map] writes is the rendering of the coerced pairs. *)
Lemma save_id_map_written io_error l name content :
  In (name, content) (written (events (save_id_map io_error l))) ->
  exists zs, coerced l zs /\ name = map_filename /\ content = render_map zs.
Proof.
  unfold save_id_map.
  destruct (map_data_of l) as [e|data] eqn:Hd; [intros []|].
  destruct (map_data_of_inv _ _ Hd) as (zs & Hzs & ->).
  destruct io_error as [[msg|msg kept]|]; run_m; [intros []..|].
  rewrite dumps_int_pairs. intros [[= <- <-]|[]]. now exists zs.
Qed.

(** ** The session loops *)

Lemma written_app t1 t2 : written (t1 ++ t2) = (written t1 ++ written t2)%list.
Proof. apply omap_app. Qed.

Lemma written_cons e t :
  written (e :: t)
  = match e with
    | WriteFile n c => (n, c) :: written t
    | _ => written t
    end.
Proof. now destruct e. Qed.

(** Pushes [written] through a trace under construction. *)
Ltac push_written :=
  repeat (run_m; rewrite ?written_cons, ?written_app; cbn iota).

(** The pipeline writes no file. *)
Lemma process_reupload_writes_nothing cfg net asset_id dname ddesc atype :
  written (events (process_reupload cfg net asset_id dname ddesc atype)) = [].
Proof.
  unfold process_reupload. destruct (int_of_str asset_id) as [i|]; [|reflexivity].
  assert (written (events (download_asset cfg net i)) = []) as Hw.
  { rewrite download_asset_events. now destruct (requests_get net _ _ _). }
  push_written. rewrite Hw.
  destruct (outcome (download_asset cfg net i)) as [e|[msg|data]];
    [reflexivity..|].
  destruct (upload_asset_events cfg net dname ddesc atype (bytes data) (filename data))
    as (rp & mime & Hue).
  destruct (upload_asset_returns cfg net dname ddesc atype (bytes data) (filename data))
    as ([msg|res] & Hu).
  - push_written. rewrite Hue, Hu. reflexivity.
  - push_written. rewrite Hue, Hu. push_written.
    destruct (new_id_of res) as [e|v]; [reflexivity|].
    destruct (truthy v); reflexivity.
Qed.

(** One turn of either loop keeps the recorded pairs well-formed. *)
Lemma record_step cfg nets k s dname ddesc atype r acc :
  Forall (recorded_by cfg nets) acc ->
  isdigit s = true ->
  outcome (process_reupload cfg (nets k) s dname ddesc atype) = inr r ->
  Forall (recorded_by cfg nets)
    (if fst r && truthy (snd r) then append_pair acc (JStr s) (snd r) else acc).
Proof.
  intros Hacc Hs Hr. destruct r as [ok v]. cbn [fst snd].
  destruct ok; [|exact Hacc]. destruct (truthy v) eqn:Hv; [|exact Hacc].
  cbn [andb]. unfold append_pair. apply Forall_app. split; [exact Hacc|].
  constructor; [|constructor].
  exists s, k, dname, ddesc, atype. repeat split; assumption.
Qed.

Lemma batch_loop_spec cfg nets dname_prefix ddesc atype total ids :
  forall count acc,
    Forall (fun s => isdigit s = true) ids ->
    Forall (recorded_by cfg nets) acc ->
    written (events (batch_loop cfg nets dname_prefix ddesc atype total count acc ids))
    = []
    /\ forall pairs,
         outcome (batch_loop cfg nets dname_prefix ddesc atype total count acc ids)
         = inr pairs ->
         Forall (recorded_by cfg nets) pairs.
Proof.
  induction ids as [|s ids IH]; intros count acc Hids Hacc; cbn [batch_loop].
  - split; [reflexivity|]. now intros pairs [= <-].
  - inversion Hids as [|? ? Hs Hrest]; subst.
    push_written. rewrite process_reupload_writes_nothing.
    destruct (outcome (process_reupload cfg (nets count) s (dname_prefix +:+ s)
                         ddesc atype)) as [e|r] eqn:Hr.
    + split; [reflexivity|]. discriminate.
    + pose proof (record_step cfg nets count _ _ _ _ _ _ Hacc Hs Hr) as Hacc'.
      destruct (IH (S count) _ Hrest Hacc') as (Hw & Hp).
      split; [exact Hw|exact Hp].
Qed.

Section SessionOk.
Context (cfg : config) (nets : nat -> transport) (io_error : option io_failure).

Lemma session_ok_ret pairs :
  Forall (recorded_by cfg nets) pairs -> session_ok cfg nets io_error (mret pairs).
Proof.
  intros H. split; [intros ? ? []|]. now intros ? [= <-].
Qed.

Lemma session_ok_raise e : session_ok cfg nets io_error (raise e).
Proof. split; [intros ? ? []|discriminate]. Qed.

(** A step that writes no file passes the guarantee on to what follows. *)
Lemma session_ok_bind_quiet {A : Type} (m : M A) (k : A -> M (list (json * json))) :
  written (events m) = [] ->
  (forall a, outcome m = inr a -> session_ok cfg nets io_error (k a)) ->
  session_ok cfg nets io_error (m ≫= k).
Proof.
  intros Hq Hk. unfold session_ok.
  rewrite bind_events, bind_outcome, written_app, Hq.
  destruct (outcome m) as [e|a]; [split; [intros ? ? []|discriminate]|].
  exact (Hk a eq_refl).
Qed.

(** Saving the pairs recorded so far keeps the guarantee. *)
Lemma session_ok_save acc (k : unit -> M (list (json * json))) :
  Forall (recorded_by cfg nets) acc ->
  session_ok cfg nets io_error (k tt) ->
  session_ok cfg nets io_error
    ((if pairs_truthy acc then save_id_map io_error acc else mret tt) ≫= k).
Proof.
  intros Hacc [Hw Ho]. destruct (pairs_truthy acc).
  - unfold session_ok. rewrite bind_events, bind_outcome, written_app.
    destruct (outcome (save_id_map io_error acc)) as [e|[]].
    + split; [|discriminate]. intros name content Hin.
      rewrite app_nil_r in Hin. now exists acc.
    + split; [|exact Ho]. intros name content Hin.
      apply in_app_or in Hin as [Hin|Hin]; [now exists acc|now apply Hw].
  - apply session_ok_bind_quiet; [reflexivity|]. now intros [] _.
Qed.

Lemma batch_mode_ok (ids_to_process : gset string) dname_prefix ddesc atype :
  (forall s, s ∈ ids_to_process -> isdigit s = true) ->
  session_ok cfg nets io_error
    (batch_mode cfg nets io_error ids_to_process dname_prefix ddesc atype).
Proof.
  intros Hids. unfold batch_mode.
  apply session_ok_bind_quiet; [reflexivity|]. intros [] _.
  assert (Forall (fun s => isdigit s = true) (sorted_ids ids_to_process)) as Hs.
  { unfold sorted_ids. rewrite merge_sort_Permutation.
    apply Forall_forall. intros s Hs. apply Hids. now apply elem_of_elements. }
  destruct (batch_loop_spec cfg nets dname_prefix ddesc atype
              (size ids_to_process) _ 0%nat [] Hs (List.Forall_nil _)) as (Hw & Hp).
  apply session_ok_bind_quiet; [exact Hw|]. intros pairs Hpairs.
  apply session_ok_bind_quiet; [reflexivity|]. intros [] _.
  apply session_ok_save; [now apply Hp|]. apply session_ok_ret. now apply Hp.
Qed.

Lemma manual_loop_ok n :
  forall stdin run acc,
    (length stdin <= n)%nat ->
    Forall (recorded_by cfg nets) acc ->
    session_ok cfg nets io_error (manual_loop cfg nets io_error run acc stdin).
Proof.
  induction n as [|n IH]; intros stdin run acc Hlen Hacc.
  - destruct stdin; [|cbn in Hlen; lia]. cbn [manual_loop].
    apply session_ok_bind_quiet; [reflexivity|]. intros [] _.
    apply session_ok_raise.
  - destruct stdin as [|line stdin1]; cbn [manual_loop];
      (apply session_ok_bind_quiet; [reflexivity|]; intros [] _);
      [apply session_ok_raise|].
    cbn [length] in Hlen.
    destruct (str_in_list _ _).
    { apply session_ok_bind_quiet; [reflexivity|]. intros [] _.
      apply session_ok_save; [exact Hacc|]. apply session_ok_raise. }
    destruct (String.eqb _ _).
    { apply session_ok_bind_quiet; [reflexivity|]. intros [] _.
      apply session_ok_save; [exact Hacc|]. now apply session_ok_ret. }
    destruct (isdigit (strip_by isspace_char line)) eqn:Hd; cbn [negb].
    2:{ apply session_ok_bind_quiet; [reflexivity|]. intros [] _.
        apply IH; [lia|exact Hacc]. }
    apply session_ok_bind_quiet; [reflexivity|]. intros [] _.
    destruct stdin1 as [|line2 stdin2]; [apply session_ok_raise|].
    apply session_ok_bind_quiet; [reflexivity|]. intros [] _.
    destruct stdin2 as [|line3 stdin3]; [apply session_ok_raise|].
    apply session_ok_bind_quiet; [reflexivity|]. intros [] _.
    destruct stdin3 as [|line4 stdin4]; [apply session_ok_raise|].
    apply session_ok_bind_quiet; [apply process_reupload_writes_nothing|].
    intros r Hr. cbn [length] in Hlen. apply IH; [lia|].
    now apply (record_step cfg nets run _ _ _ _ _ _ Hacc Hd Hr).
Qed.
End SessionOk.

(** ** The extractor yields digit texts *)

Lemma scan_prop_isdigit ids prop :
  (forall s, s ∈ ids -> isdigit s = true) ->
  forall s, s ∈ scan_prop ids prop -> isdigit s = true.
Proof.
  intros Hids s. unfold scan_prop.
  destruct (has_marker prop); [|apply Hids].
  destruct (el_text prop) as [value|]; [|apply Hids].
  destruct (str_truthy value); [|apply Hids].
  destruct (isdigit _) eqn:Hd; [|apply Hids].
  intros [->%elem_of_singleton|Hs]%elem_of_union; [exact Hd|now apply Hids].
Qed.

Lemma foldl_scan_prop_isdigit props : forall ids,
  (forall s, s ∈ ids -> isdigit s = true) ->
  forall s, s ∈ foldl scan_prop ids props -> isdigit s = true.
Proof.
  induction props as [|prop props IH]; intros ids Hids; [exact Hids|].
  cbn [foldl]. apply IH. now apply scan_prop_isdigit.
Qed.

Lemma foldl_scan_item_isdigit items : forall ids,
  (forall s, s ∈ ids -> isdigit s = true) ->
  forall s, s ∈ foldl scan_item ids items -> isdigit s = true.
Proof.
  induction items as [|item items IH]; intros ids Hids; [exact Hids|].
  cbn [foldl]. apply IH. unfold scan_item.
  destruct (find_child "Properties" item); [|exact Hids].
  now apply foldl_scan_prop_isdigit.
Qed.

(** Every identifier the extractor yields is accepted by [isdigit]. *)
Lemma extract_animation_ids_isdigit rbxl_path parsed ids :
  outcome (extract_animation_ids rbxl_path parsed) = inr ids ->
  forall s, s ∈ ids -> isdigit s = true.
Proof.
  destruct parsed as [e|root]; intros [= <-].
  - intros s Hs. now apply not_elem_of_empty in Hs.
  - apply foldl_scan_item_isdigit. intros s Hs. now apply not_elem_of_empty in Hs.
Qed.

(** ** What reaches the persisted map *)

(** A recorded pair that [int] accepts is a mapping that stems from a
    run. *)
Lemma recorded_by_mapping cfg nets p z :
  recorded_by cfg nets p ->
  py_int (fst p) = inr (fst z) -> py_int (snd p) = inr (snd z) ->
  mapping_of_run cfg nets z.
Proof.
  intros (s & k & dname & ddesc & atype & Hp & Hs & Hr & Hv) Ho Hn.
  rewrite Hp in Ho. cbn [py_int] in Ho.
  destruct (int_of_str s) as [o|] eqn:Hi; [|discriminate]. injection Ho as Ho.
  pose proof (isdigit_int_decimal s o Hs Hi) as Hd.
  pose proof (int_of_str_decimal_value s Hd) as Hdv.
  exists s, (snd p), k, dname, ddesc, atype.
  rewrite <- Ho. repeat split; try assumption.
  - congruence.
  - now apply (int_of_str_isdigit_nonneg s).
Qed.

Lemma recorded_coerced_runs cfg nets l zs :
  Forall (recorded_by cfg nets) l -> coerced l zs ->
  Forall (mapping_of_run cfg nets) zs.
Proof.
  intros Hl Hc. induction Hc as [|p z l zs [Ho Hn] _ IH]; [constructor|].
  inversion Hl as [|? ? Hp Hrest]; subst.
  constructor; [|now apply IH]. now apply (recorded_by_mapping cfg nets p).
Qed.

Lemma session_ok_written cfg nets io_error m name content :
  session_ok cfg nets io_error m ->
  In (name, content) (written (events m)) ->
  exists zs, name = map_filename /\ content = render_map zs
             /\ Forall (mapping_of_run cfg nets) zs.
Proof.
  intros [Hw _] Hin. destruct (Hw _ _ Hin) as (pairs & Hok & Hin').
  destruct (save_id_map_written _ _ _ _ Hin') as (zs & Hc & -> & ->).
  exists zs. repeat split. now apply (recorded_coerced_runs cfg nets pairs).
Qed.

(** C7 (as stated, refuted): the identifier 123 is reuploaded, the platform
    answers with the same identifier 123, and the pair (123, 123) is
    persisted; when it answers [-7], the persisted new identifier is
    negative; when it answers the text [0], which is true in Python's
    sense, the persisted new identifier is zero. *)
Lemma persisted_pair_not_distinct_nor_positive :
  written (events (batch_mode DEFAULT_CFG
                     (fun _ => publishing (JDict [("assetId", JInt 123)])) None
                     {[ "123" ]} EmptyString EmptyString "Animation"))
  = [(map_filename, render_map [(123, 123)])]
  /\ written (events (manual_loop DEFAULT_CFG
                        (fun _ => publishing (JDict [("assetId", JInt (-7))])) None
                        0 [] ["123"; EmptyString; EmptyString; EmptyString; "b"]))
     = [(map_filename, render_map [(123, -7)])]
  /\ written (events (manual_loop DEFAULT_CFG
                        (fun _ => publishing (JDict [("assetId", JStr "0")])) None
                        0 [] ["123"; EmptyString; EmptyString; EmptyString; "b"]))
     = [(map_filename, render_map [(123, 0)])].
Proof. split; [|split]; vm_compute; reflexivity. Qed.

(** C7 (amended): every mapping that reaches the persisted map, in a batch
    over the identifiers the extractor yields and in a manual session, for
    every sequence of runs and every answer of the platform, stems from a
    run of the pipeline that returned success: its [oldId] is the [int] of
    the digit text that run processed, the number the digits denote, and is
    not negative; its [newId] is the [int] of the true value that run
    resolved from the publish response.  The code compares [newId] neither
    with zero nor with [oldId]: it may equal [oldId], be zero or be
    negative. *)
Theorem persisted_map_entries cfg nets io_error name content :
  (forall rbxl_path parsed ids dname_prefix ddesc atype,
     outcome (extract_animation_ids rbxl_path parsed) = inr ids ->
     In (name, content)
        (written (events (batch_mode cfg nets io_error ids
                            dname_prefix ddesc atype))) ->
     exists zs, name = map_filename /\ content = render_map zs
                /\ Forall (mapping_of_run cfg nets) zs)
  /\ (forall stdin,
        In (name, content)
           (written (events (manual_loop cfg nets io_error 0 [] stdin))) ->
        exists zs, name = map_filename /\ content = render_map zs
                   /\ Forall (mapping_of_run cfg nets) zs).
Proof.
  split.
  - intros rbxl_path parsed ids dname_prefix ddesc atype Hx.
    apply (session_ok_written cfg nets io_error), batch_mode_ok.
    exact (extract_animation_ids_isdigit _ _ _ Hx).
  - intros stdin. apply (session_ok_written cfg nets io_error).
    apply (manual_loop_ok cfg nets io_error (length stdin)); [lia|constructor].
Qed.

Lemma persisted_map_entries_witness :
  (exists zs, map_filename = map_filename
     /\ render_map [(123, 123)] = render_map zs
     /\ Forall (mapping_of_run DEFAULT_CFG
                  (fun _ => publishing (JDict [("assetId", JInt 123)]))) zs)
  /\ (exists zs, map_filename = map_filename
        /\ render_map [(123, 0)] = render_map zs
        /\ Forall (mapping_of_run DEFAULT_CFG
                     (fun _ => publishing (JDict [("assetId", JStr "0")]))) zs).
Proof.
  split.
  - apply (proj1 (persisted_map_entries DEFAULT_CFG
                    (fun _ => publishing (JDict [("assetId", JInt 123)])) None
                    map_filename (render_map [(123, 123)]))
             "place.rbxl" (inr (document_of [marked_prop "rbxassetid://123"]))
             {[ "123" ]} EmptyString EmptyString "Animation").
    + vm_compute. reflexivity.
    + vm_compute. left. reflexivity.
  - apply (proj2 (persisted_map_entries DEFAULT_CFG
                    (fun _ => publishing (JDict [("assetId", JStr "0")])) None
                    map_filename (render_map [(123, 0)]))
             ["123"; EmptyString; EmptyString; EmptyString; "b"]).
    vm_compute. left. reflexivity.
Defined.

(** ** The extractor on sample properties *)

(** C8: on a parsed document, a property carrying the marker and the text
    "rbxassetid://4827491" contributes the identifier 4827491 (as the digit
    text), one with the text "notanumber" contributes nothing, and one with
    the bare text "12345" contributes 12345; on a document that does not
    parse the extractor prints the error and returns the empty set, without
    raising. *)
Theorem extractor_examples :
  (forall ids tag attrib children,
     has_marker (Element tag attrib None children) = true ->
     scan_prop ids (Element tag attrib (Some "rbxassetid://4827491") children)
     = {[ "4827491" ]} ∪ ids
     /\ scan_prop ids (Element tag attrib (Some "notanumber") children) = ids
     /\ scan_prop ids (Element tag attrib (Some "12345") children)
        = {[ "12345" ]} ∪ ids)
  /\ (forall rbxl_path,
        outcome (extract_animation_ids rbxl_path
                   (inr (document_of [marked_prop "rbxassetid://4827491"])))
        = inr {[ "4827491" ]}
        /\ outcome (extract_animation_ids rbxl_path
                      (inr (document_of [marked_prop "notanumber"])))
           = inr ∅
        /\ outcome (extract_animation_ids rbxl_path
                      (inr (document_of [marked_prop "12345"])))
           = inr {[ "12345" ]}
        /\ outcome (extract_animation_ids rbxl_path
                      (inr (document_of [marked_prop "rbxassetid://4827491";
                                         marked_prop "notanumber";
                                         marked_prop "12345"])))
           = inr {[ "4827491"; "12345" ]})
  /\ (forall rbxl_path msg,
        extract_animation_ids rbxl_path (inl msg)
        = ([Print [Txt "[ERROR] ไม่สามารถเปิดไฟล์ "; Txt rbxl_path; Txt ": ";
                   Txt msg]],
           inr ∅)).
Proof.
  split; [|split].
  - intros ids tag attrib children Hm. unfold scan_prop.
    change (has_marker (Element tag attrib ?t children))
      with (has_marker (Element tag attrib None children)).
    rewrite Hm. repeat split.
  - intros rbxl_path. repeat split; vm_compute; reflexivity.
  - reflexivity.
Qed.

Lemma extractor_examples_witness :
  scan_prop ∅ (Element "AnimationId" [] (Some "rbxassetid://4827491") [])
  = {[ "4827491" ]} ∪ ∅
  /\ scan_prop ∅ (Element "AnimationId" [] (Some "notanumber") []) = ∅
  /\ scan_prop ∅ (Element "AnimationId" [] (Some "12345") [])
     = {[ "12345" ]} ∪ ∅.
Proof.
  apply (proj1 extractor_examples ∅ "AnimationId" [] []). reflexivity.
Defined.

(** ** Removal of the URI scheme *)

Lemma prefix_scheme_decimal c s :
  is_decimal_char c = true -> String.prefix scheme (String c s) = false.
Proof.
  intros Hc. unfold scheme. cbn [String.prefix].
  destruct (ascii_dec "r" c) as [<-|]; [discriminate Hc|reflexivity].
Qed.

(** Digits before an occurrence are kept as they are. *)
Lemma replace_go_digits a rest :
  str_forall is_decimal_char a = true ->
  replace_go scheme EmptyString 0 (a +:+ rest)
  = a +:+ replace_go scheme EmptyString 0 rest.
Proof.
  induction a as [|c a IH]; [reflexivity|]. cbn [str_forall].
  intros [Hc Ha]%andb_true_iff. rewrite !str_app_cons.
  cbn [replace_go]. rewrite (prefix_scheme_decimal _ _ Hc). now rewrite IH.
Qed.

(** An occurrence is dropped and the scan goes on behind it. *)
Lemma replace_go_scheme rest :
  replace_go scheme EmptyString 0 (scheme +:+ rest)
  = replace_go scheme EmptyString 0 rest.
Proof. destruct rest; reflexivity. Qed.

Lemma replace_go_no_occurrence old new s :
  str_contains old s = false -> replace_go old new 0 s = s.
Proof.
  induction s as [|c s IH]; [reflexivity|]. cbn [str_contains replace_go].
  intros [-> Hs]%orb_false_iff. now rewrite (IH Hs).
Qed.

(** Lines 76-77 amount to the replacement alone. *)
Lemma strip_scheme value :
  (if str_contains scheme value then str_replace scheme EmptyString value else value)
  = str_replace scheme EmptyString value.
Proof.
  destruct (str_contains scheme value) eqn:H; [reflexivity|].
  symmetry. now apply replace_go_no_occurrence.
Qed.

(** Every occurrence of the scheme between runs of digits is removed. *)
Lemma replace_join_scheme pieces :
  Forall (fun p => str_forall is_decimal_char p = true) pieces ->
  str_replace scheme EmptyString (join scheme pieces) = join EmptyString pieces.
Proof.
  unfold str_replace.
  induction pieces as [|x [|y pieces] IH]; intros H; [reflexivity| |].
  - inversion H as [|? ? Hx _]; subst. cbn [join].
    rewrite <- (str_app_nil_r x) at 1. rewrite (replace_go_digits _ _ Hx).
    apply str_app_nil_r.
  - inversion H as [|? ? Hx Hrest]; subst.
    change (join scheme (x :: y :: pieces))
      with (x +:+ scheme +:+ join scheme (y :: pieces)).
    change (join EmptyString (x :: y :: pieces))
      with (x +:+ EmptyString +:+ join EmptyString (y :: pieces)).
    rewrite (replace_go_digits _ _ Hx), replace_go_scheme, (IH Hrest).
    reflexivity.
Qed.

Lemma str_forall_app p a b :
  str_forall p (a +:+ b) = str_forall p a && str_forall p b.
Proof.
  induction a as [|c a IH]; [reflexivity|].
  rewrite str_app_cons. cbn [str_forall]. now rewrite IH, andb_assoc.
Qed.

Lemma join_digits pieces :
  Forall (fun p => str_forall is_decimal_char p = true) pieces ->
  str_forall is_decimal_char (join EmptyString pieces) = true.
Proof.
  induction pieces as [|x [|y pieces] IH]; intros H; [reflexivity| |];
    inversion H as [|? ? Hx Hrest]; subst; [exact Hx|].
  change (join EmptyString (x :: y :: pieces))
    with (x +:+ EmptyString +:+ join EmptyString (y :: pieces)).
  rewrite !str_forall_app, Hx, (IH Hrest). reflexivity.
Qed.

(** C10: the stripping of the URI scheme removes every occurrence of
    "rbxassetid://" in the text of a property, wherever it stands, before
    the all-digits check: a text made of runs of digits with the scheme
    between them becomes the digits alone and, when not empty, is added to
    the result; so "123rbxassetid://456" becomes "123456" and is
    included. *)
Theorem scheme_removed_everywhere :
  (forall pieces,
     Forall (fun p => str_forall is_decimal_char p = true) pieces ->
     str_replace scheme EmptyString (join scheme pieces) = join EmptyString pieces)
  /\ (forall ids tag attrib children pieces,
        has_marker (Element tag attrib None children) = true ->
        Forall (fun p => str_forall is_decimal_char p = true) pieces ->
        str_truthy (join EmptyString pieces) = true ->
        scan_prop ids (Element tag attrib (Some (join scheme pieces)) children)
        = {[ join EmptyString pieces ]} ∪ ids)
  /\ str_replace scheme EmptyString "123rbxassetid://456" = "123456"
  /\ (forall rbxl_path,
        outcome (extract_animation_ids rbxl_path
                   (inr (document_of [marked_prop "123rbxassetid://456"])))
        = inr {[ "123456" ]}).
Proof.
  split; [exact replace_join_scheme|]. split; [|split; [reflexivity|]].
  - intros ids tag attrib children pieces Hm Hp Ht. unfold scan_prop.
    change (has_marker (Element tag attrib ?t children))
      with (has_marker (Element tag attrib None children)).
    rewrite Hm. cbn [el_text]. rewrite strip_scheme, (replace_join_scheme _ Hp).
    assert (isdigit (join EmptyString pieces) = true) as ->.
    { pose proof (join_digits _ Hp) as Hd. unfold isdigit.
      destruct (join EmptyString pieces) as [|c s]; [discriminate Ht|].
      clear Ht. revert Hd. generalize (String c s). clear.
      induction s as [|c s IH]; [reflexivity|]. cbn [str_forall].
      intros [Hc Hs]%andb_true_iff.
      now rewrite (decimal_isdigit_char _ Hc), IH. }
    destruct (str_truthy (join scheme pieces)) eqn:Hv; [reflexivity|].
    destruct (join scheme pieces) eqn:Hj; [|discriminate Hv].
    pose proof (replace_join_scheme _ Hp) as Hr. rewrite Hj in Hr.
    rewrite <- Hr in Ht. discriminate Ht.
  - intros rbxl_path. vm_compute. reflexivity.
Qed.

Lemma scheme_removed_everywhere_witness :
  str_replace scheme EmptyString (join scheme ["1"; "22"; "333"])
  = join EmptyString ["1"; "22"; "333"]
  /\ scan_prop ∅ (Element "AnimationId" [] (Some (join scheme ["123"; "456"])) [])
     = {[ join EmptyString ["123"; "456"] ]} ∪ ∅.
Proof.
  split.
  - apply (proj1 scheme_removed_everywhere ["1"; "22"; "333"]).
    repeat constructor.
  - apply (proj1 (proj2 scheme_removed_everywhere) ∅ "AnimationId" [] []
             ["123"; "456"]); [reflexivity|repeat constructor|reflexivity].
Defined.

(** ** Strings in, integers out *)

Lemma digits_or_int_int_value v :
  digits_or_int v = true -> py_int v = inr (int_value v).
Proof.
  destruct v; try discriminate; cbn [digits_or_int py_int int_value]; intros H.
  - reflexivity.
  - now rewrite (int_of_str_decimal_value _ H).
Qed.

Lemma digits_or_int_coerced_values l :
  Forall (fun p => digits_or_int (fst p) = true /\ digits_or_int (snd p) = true) l ->
  coerced l (int_values l).
Proof.
  induction 1 as [|[old new] l [Ho Hn] _ IH]; [constructor|].
  cbn [fst snd] in Ho, Hn. cbn [int_values map]. constructor; [|exact IH].
  cbn [fst snd]. split; now apply digits_or_int_int_value.
Qed.

(** One member that [int] rejects makes the conversion of the list raise. *)
Lemma map_data_of_rejects l p e :
  In p l -> py_int (fst p) = inl e \/ py_int (snd p) = inl e ->
  exists e', map_data_of l = inl e'.
Proof.
  induction l as [|[old new] l IH]; intros Hin Hp; [destruct Hin|].
  cbn [map_data_of].
  destruct (py_int old) as [e1|o] eqn:Ho; [now eexists|].
  destruct (py_int new) as [e2|n] eqn:Hn; [now eexists|].
  destruct Hin as [<-|Hin].
  - cbn [fst snd] in Hp. destruct Hp; congruence.
  - destruct (IH Hin Hp) as (e' & ->). now eexists.
Qed.

(** A text [isdigit] accepts is none of the commands of the manual loop. *)
Lemma isdigit_not_command aid :
  isdigit aid = true ->
  str_in_list (lower aid) ["q"; "quit"; "exit"] = false
  /\ String.eqb (lower aid) "b" = false.
Proof.
  destruct aid as [|c t]; [discriminate|]. unfold isdigit. cbn [str_forall].
  intros [Hc _]%andb_true_iff.
  destruct c as [[] [] [] [] [] [] [] []]; try discriminate Hc;
    split; vm_compute; reflexivity.
Qed.

Lemma recorded_pair_append acc s (r : bool * json) :
  (if fst r && truthy (snd r) then append_pair acc (JStr s) (snd r) else acc)
  = (acc ++ recorded_pair s (inr r))%list.
Proof.
  destruct r as [[] v]; cbn [fst snd andb recorded_pair];
    [destruct (truthy v)|]; unfold append_pair; now rewrite ?app_nil_r.
Qed.

(** The list a batch returns: what it started with, then what each run
    contributes, in the order of the identifiers. *)
Lemma batch_loop_records cfg nets dname_prefix ddesc atype total ids :
  forall count acc pairs,
    outcome (batch_loop cfg nets dname_prefix ddesc atype total count acc ids)
    = inr pairs ->
    pairs
    = (acc ++ concat
         (imap (fun k s =>
                  recorded_pair s
                    (outcome (process_reupload cfg (nets (count + k)%nat) s
                                (dname_prefix +:+ s) ddesc atype)))
            ids))%list.
Proof.
  induction ids as [|s ids IH]; intros count acc pairs; cbn [batch_loop].
  - intros [= <-]. cbn [imap concat]. now rewrite app_nil_r.
  - run_m.
    destruct (outcome (process_reupload cfg (nets count) s (dname_prefix +:+ s)
                         ddesc atype)) as [e|r] eqn:Hr; [discriminate|].
    intros H. rewrite (IH _ _ _ H), recorded_pair_append.
    rewrite imap_cons. cbn [concat]. rewrite Nat.add_0_r, Hr, <- app_assoc.
    do 2 f_equal. f_equal. apply imap_ext. intros k x _. cbn [compose].
    now rewrite Nat.add_succ_r.
Qed.

(** One turn of the manual loop on an identifier [isdigit] accepts. *)
Lemma manual_loop_records cfg nets io_error run acc line l2 l3 l4 rest :
  isdigit (strip_by isspace_char line) = true ->
  outcome (manual_loop cfg nets io_error run acc (line :: l2 :: l3 :: l4 :: rest))
  = match outcome (process_reupload cfg (nets run) (strip_by isspace_char line)
                     (or_default (strip_by isspace_char l2)
                        ("Reupload_" +:+ strip_by isspace_char line))
                     (strip_by isspace_char l3)
                     (or_default (strip_by isspace_char l4) "Model")) with
    | inl e => inl e
    | inr r =>
        outcome (manual_loop cfg nets io_error (S run)
                   (acc ++ recorded_pair (strip_by isspace_char line) (inr r))
                   rest)
    end.
Proof.
  intros Hd. destruct (isdigit_not_command _ Hd) as (Hq & Hb).
  cbn [manual_loop]. rewrite Hq, Hb, Hd. cbn [negb]. run_m.
  destruct (outcome (process_reupload _ _ _ _ _ _)) as [e|r]; [reflexivity|].
  now rewrite recorded_pair_append.
Qed.

(** C4 (as stated, refuted): the identifier 123 is reuploaded by hand and
    the platform answers with the new identifier [abc]; the run reports
    success, the pair is recorded, and persisting it on the way back to the
    menu raises [ValueError]: no array is written. *)
Lemma recorded_pair_not_persisted :
  outcome (process_reupload DEFAULT_CFG
             (publishing (JDict [("assetId", JStr "abc")]))
             "123" "Reupload_123" EmptyString "Model")
  = inr (true, JStr "abc")
  /\ save_id_map None [(JStr "123", JStr "abc")] = ([], inl ValueError)
  /\ outcome (manual_loop DEFAULT_CFG
                (fun _ => publishing (JDict [("assetId", JStr "abc")])) None
                0 [] ["123"; EmptyString; EmptyString; EmptyString; "b"])
     = inl ValueError
  /\ written (events (manual_loop DEFAULT_CFG
                        (fun _ => publishing (JDict [("assetId", JStr "abc")]))
                        None 0 []
                        ["123"; EmptyString; EmptyString; EmptyString; "b"]))
     = [].
Proof. repeat split; vm_compute; reflexivity. Qed.

(** C4 (amended): for every sequence of recorded pairs whose members [int]
    accepts, persisting the map writes, to [reupload_map.json], the JSON
    array of the objects with the integer fields [oldId], the [int] of the
    old member, and [newId], the [int] of the new member, one object per
    pair in insertion order, pretty-printed with 2-space indentation; for
    members that are digit texts or integers these are the numbers the
    digits denote and the integers themselves.  When [int] rejects a
    member of some pair, persisting raises and writes nothing.  After the
    pairs of the text [123] with 456 and of the text [789] with 1011 were
    recorded, as a session records them, the content is the array of
    [{"oldId": 123, "newId": 456}] and [{"oldId": 789, "newId": 1011}], in
    that order. *)
Theorem save_id_map_writes_array :
  (forall l zs,
     coerced l zs ->
     outcome (save_id_map None l) = inr tt
     /\ written (events (save_id_map None l)) = [(map_filename, render_map zs)])
  /\ (forall l,
        Forall (fun p => digits_or_int (fst p) = true
                         /\ digits_or_int (snd p) = true) l ->
        coerced l (int_values l))
  /\ (forall io_error l p e,
        In p l -> py_int (fst p) = inl e \/ py_int (snd p) = inl e ->
        exists e', outcome (save_id_map io_error l) = inl e'
                   /\ events (save_id_map io_error l) = [])
  /\ written (events (save_id_map None
                        (append_pair (append_pair [] (JStr "123") (JInt 456))
                           (JStr "789") (JInt 1011))))
     = [(map_filename,
         join nl
           ["[";
            "  {";
            "    " +:+ quoted "oldId" +:+ ": 123,";
            "    " +:+ quoted "newId" +:+ ": 456";
            "  },";
            "  {";
            "    " +:+ quoted "oldId" +:+ ": 789,";
            "    " +:+ quoted "newId" +:+ ": 1011";
            "  }";
            "]"])]
  /\ written (events (manual_loop DEFAULT_CFG
                        (fun k => publishing
                                    (JDict [("assetId",
                                             JInt (if (k =? 0)%nat then 456
                                                   else 1011))]))
                        None 0 []
                        ["123"; EmptyString; EmptyString; EmptyString;
                         "789"; EmptyString; EmptyString; EmptyString; "b"]))
     = [(map_filename,
         join nl
           ["[";
            "  {";
            "    " +:+ quoted "oldId" +:+ ": 123,";
            "    " +:+ quoted "newId" +:+ ": 456";
            "  },";
            "  {";
            "    " +:+ quoted "oldId" +:+ ": 789,";
            "    " +:+ quoted "newId" +:+ ": 1011";
            "  }";
            "]"])].
Proof.
  split; [|split; [|split; [|split]]].
  - intros l zs. apply save_id_map_coerced.
  - apply digits_or_int_coerced_values.
  - intros io_error l p e Hin Hp.
    destruct (map_data_of_rejects l p e Hin Hp) as (e' & He').
    exists e'. unfold save_id_map. rewrite He'. split; reflexivity.
  - vm_compute. reflexivity.
  - vm_compute. reflexivity.
Qed.

Lemma save_id_map_writes_array_witness :
  (outcome (save_id_map None [(JStr " 12 ", JFloat (FFinite 9 2 "4.5"))]) = inr tt
   /\ written (events (save_id_map None
                         [(JStr " 12 ", JFloat (FFinite 9 2 "4.5"))]))
      = [(map_filename, render_map [(12, 4)])])
  /\ coerced [(JStr "0123", JStr "456")] (int_values [(JStr "0123", JStr "456")])
  /\ int_values [(JStr "0123", JStr "456")] = [(123, 456)]
  /\ exists e',
       outcome (save_id_map None [(JStr "123", JInt 456); (JStr "789", JNull)])
       = inl e'
       /\ events (save_id_map None [(JStr "123", JInt 456); (JStr "789", JNull)])
          = [].
Proof.
  split; [|split; [|split]].
  - apply (proj1 save_id_map_writes_array
             [(JStr " 12 ", JFloat (FFinite 9 2 "4.5"))] [(12, 4)]).
    repeat constructor.
  - apply (proj1 (proj2 save_id_map_writes_array) [(JStr "0123", JStr "456")]).
    repeat constructor.
  - reflexivity.
  - apply (proj1 (proj2 (proj2 save_id_map_writes_array)) None
             [(JStr "123", JInt 456); (JStr "789", JNull)] (JStr "789", JNull)
             TypeError).
    + right. left. reflexivity.
    + right. reflexivity.
Defined.

(** C9: for every list of pairs whose members are decimal digit strings or
    integers, [save_id_map] returns and the file it writes holds, for each
    pair in order, the JSON integers the members stand for: the number the
    digits of a text denote, an integer itself.  And both session loops do
    accumulate the old identifier as a string: the list a batch returns is
    made, in the order of the identifiers, of the pairs of the text
    processed with the value returned, one for each run that reports
    success with a true value; a turn of the manual loop on a digit text
    adds such a pair in the same way.  So a platform that answers the text
    [0456] for the identifier 123 has the integers 123 and 456 persisted,
    in a batch and in a manual session. *)
Theorem save_id_map_coerces_to_int :
  (forall l,
     Forall (fun p => digits_or_int (fst p) = true
                      /\ digits_or_int (snd p) = true) l ->
     outcome (save_id_map None l) = inr tt
     /\ written (events (save_id_map None l))
        = [(map_filename, render_map (int_values l))])
  /\ (forall cfg nets dname_prefix ddesc atype total count acc ids pairs,
        outcome (batch_loop cfg nets dname_prefix ddesc atype total count acc ids)
        = inr pairs ->
        pairs
        = (acc ++ concat
             (imap (fun k s =>
                      recorded_pair s
                        (outcome (process_reupload cfg (nets (count + k)%nat) s
                                    (dname_prefix +:+ s) ddesc atype)))
                ids))%list)
  /\ (forall cfg nets io_error run acc line l2 l3 l4 rest,
        isdigit (strip_by isspace_char line) = true ->
        outcome (manual_loop cfg nets io_error run acc
                   (line :: l2 :: l3 :: l4 :: rest))
        = match outcome (process_reupload cfg (nets run)
                           (strip_by isspace_char line)
                           (or_default (strip_by isspace_char l2)
                              ("Reupload_" +:+ strip_by isspace_char line))
                           (strip_by isspace_char l3)
                           (or_default (strip_by isspace_char l4) "Model")) with
          | inl e => inl e
          | inr r =>
              outcome (manual_loop cfg nets io_error (S run)
                         (acc ++ recorded_pair (strip_by isspace_char line) (inr r))
                         rest)
          end)
  /\ (outcome (batch_mode DEFAULT_CFG
                 (fun _ => publishing (JDict [("assetId", JStr "0456")]))
                 None {[ "123" ]} EmptyString EmptyString "Animation")
      = inr [(JStr "123", JStr "0456")]
      /\ written (events (batch_mode DEFAULT_CFG
                            (fun _ => publishing (JDict [("assetId", JStr "0456")]))
                            None {[ "123" ]} EmptyString EmptyString "Animation"))
         = [(map_filename, render_map [(123, 456)])])
  /\ (outcome (manual_loop DEFAULT_CFG
                 (fun _ => publishing (JDict [("assetId", JStr "0456")]))
                 None 0 [] ["123"; EmptyString; EmptyString; EmptyString; "b"])
      = inr [(JStr "123", JStr "0456")]
      /\ written (events (manual_loop DEFAULT_CFG
                            (fun _ => publishing (JDict [("assetId", JStr "0456")]))
                            None 0 []
                            ["123"; EmptyString; EmptyString; EmptyString; "b"]))
         = [(map_filename, render_map [(123, 456)])]).
Proof.
  split; [|split; [|split; [|split]]].
  - intros l Hl. apply save_id_map_coerced.
    now apply digits_or_int_coerced_values.
  - intros cfg nets dname_prefix ddesc atype total count acc ids pairs.
    apply batch_loop_records.
  - intros cfg nets io_error run acc line l2 l3 l4 rest.
    apply manual_loop_records.
  - split; vm_compute; reflexivity.
  - split; vm_compute; reflexivity.
Qed.

Lemma save_id_map_coerces_to_int_witness :
  (outcome (save_id_map None [(JStr "123", JInt 456); (JStr "0789", JStr "1011")])
   = inr tt
   /\ written (events (save_id_map None
                         [(JStr "123", JInt 456); (JStr "0789", JStr "1011")]))
      = [(map_filename,
          render_map (int_values [(JStr "123", JInt 456);
                                  (JStr "0789", JStr "1011")]))])
  /\ int_values [(JStr "123", JInt 456); (JStr "0789", JStr "1011")]
     = [(123, 456); (789, 1011)]
  /\ [(JStr "45", JInt 7); (JStr "123", JInt 7)]
     = ([] ++ concat
          (imap (fun k s =>
                   recorded_pair s
                     (outcome (process_reupload DEFAULT_CFG
                                 (publishing (JDict [("assetId", JInt 7)])) s
                                 ("Anim_" +:+ s) EmptyString "Animation")))
             ["45"; "x"; "123"]))%list
  /\ outcome (manual_loop DEFAULT_CFG
                (fun _ => publishing (JDict [("assetId", JInt 7)])) None 0 []
                [" 123 "; EmptyString; EmptyString; EmptyString; "b"])
     = match outcome (process_reupload DEFAULT_CFG
                        (publishing (JDict [("assetId", JInt 7)]))
                        (strip_by isspace_char " 123 ")
                        (or_default (strip_by isspace_char EmptyString)
                           ("Reupload_" +:+ strip_by isspace_char " 123 "))
                        (strip_by isspace_char EmptyString)
                        (or_default (strip_by isspace_char EmptyString) "Model")) with
       | inl e => inl e
       | inr r =>
           outcome (manual_loop DEFAULT_CFG
                      (fun _ => publishing (JDict [("assetId", JInt 7)])) None 1
                      ([] ++ recorded_pair (strip_by isspace_char " 123 ") (inr r))
                      ["b"])
       end.
Proof.
  split; [|split; [|split]].
  - apply (proj1 save_id_map_coerces_to_int).
    repeat constructor.
  - reflexivity.
  - apply (proj1 (proj2 save_id_map_coerces_to_int) DEFAULT_CFG
             (fun _ => publishing (JDict [("assetId", JInt 7)]))
             "Anim_" EmptyString "Animation" 3%nat 0%nat [] ["45"; "x"; "123"]).
    vm_compute. reflexivity.
  - apply (proj1 (proj2 (proj2 save_id_map_coerces_to_int)) DEFAULT_CFG
             (fun _ => publishing (JDict [("assetId", JInt 7)])) None 0%nat []).
    reflexivity.
Defined.

(** * Further properties of the code *)

(** ** The pipeline: network discipline, result shape, exceptions *)

(** X1: a run requests the download at most once and the upload at most
    once; the upload is requested only after a successful download, and it
    carries exactly the bytes and the file name the download returned.
    Nothing is requested when [int] rejects the identifier, nor when
    building the URL of the download raises; a download that raises while
    the text of a refusal is read has made its one request. *)
Theorem fetch_once_then_publish_once cfg net asset_id dname ddesc atype :
  (int_of_str asset_id = None ->
   calls (events (process_reupload cfg net asset_id dname ddesc atype)) = [])
  /\ (forall i msg,
        int_of_str asset_id = Some i ->
        outcome (download_asset cfg net i) = inr (inl msg) ->
        calls (events (process_reupload cfg net asset_id dname ddesc atype))
        = [HttpGet (download_endpoint cfg) i (build_headers cfg)])
  /\ (forall i data,
        int_of_str asset_id = Some i ->
        outcome (download_asset cfg net i) = inr (inr data) ->
        exists request_part mime,
          calls (events (process_reupload cfg net asset_id dname ddesc atype))
          = [HttpGet (download_endpoint cfg) i (build_headers cfg);
             HttpPost (upload_endpoint cfg) (build_headers cfg) request_part
               (filename data) (bytes data) mime])
  /\ (forall i e,
        int_of_str asset_id = Some i ->
        requests_get net (download_endpoint cfg) i (build_headers cfg) = inl e ->
        calls (events (process_reupload cfg net asset_id dname ddesc atype)) = [])
  /\ (forall i r e,
        int_of_str asset_id = Some i ->
        requests_get net (download_endpoint cfg) i (build_headers cfg)
        = inr (inr r) ->
        400 <= status_code r -> text_raises r = Some e ->
        calls (events (process_reupload cfg net asset_id dname ddesc atype))
        = [HttpGet (download_endpoint cfg) i (build_headers cfg)]).
Proof.
  split; [|split; [|split; [|split]]].
  - intros H. now destruct (run_invalid cfg net asset_id dname ddesc atype H)
      as (_ & Hc & _).
  - intros i msg Hi Hd. unfold process_reupload. rewrite Hi.
    pose proof (download_asset_returned cfg net i _ Hd) as He.
    repeat (run_m; rewrite ?He, ?Hd). reflexivity.
  - intros i data Hi Hd. unfold process_reupload. rewrite Hi.
    pose proof (download_asset_returned cfg net i _ Hd) as He.
    destruct (upload_asset_events cfg net dname ddesc atype (bytes data)
                (filename data)) as (rp & mime & Hue).
    destruct (upload_asset_returns cfg net dname ddesc atype (bytes data)
                (filename data)) as (r & Hu).
    exists rp, mime.
    repeat (run_m; rewrite ?He, ?Hd, ?Hue, ?Hu).
    destruct r as [msg|res]; repeat run_m; [reflexivity|].
    destruct (new_id_of res) as [e|v]; repeat run_m; [reflexivity|].
    destruct (truthy v); repeat run_m; reflexivity.
  - intros i e Hi Hg. unfold process_reupload. rewrite Hi.
    assert (download_asset cfg net i = raise e) as ->.
    { unfold download_asset. now rewrite Hg. }
    reflexivity.
  - intros i r e Hi Hg Hs Ht. unfold process_reupload. rewrite Hi.
    assert (download_asset cfg net i
            = ([HttpGet (download_endpoint cfg) i (build_headers cfg)], inl e))
      as ->.
    { unfold download_asset. rewrite Hg.
      apply Z.leb_le in Hs. rewrite Hs, Ht. reflexivity. }
    reflexivity.
Qed.

Lemma fetch_once_then_publish_once_witness :
  calls (events (process_reupload DEFAULT_CFG fetch_refused "12a4"
                   "name" EmptyString "Model")) = []
  /\ calls (events (process_reupload DEFAULT_CFG fetch_refused "123"
                      "name" EmptyString "Model"))
     = [HttpGet (download_endpoint DEFAULT_CFG) 123 (build_headers DEFAULT_CFG)]
  /\ (exists request_part mime,
       calls (events (process_reupload DEFAULT_CFG publish_refused "123"
                        "name" EmptyString "Model"))
       = [HttpGet (download_endpoint DEFAULT_CFG) 123 (build_headers DEFAULT_CFG);
          HttpPost (upload_endpoint DEFAULT_CFG) (build_headers DEFAULT_CFG)
            request_part "asset_123.bin" "payload" mime])
  /\ calls (events (process_reupload DEFAULT_CFG bad_endpoint "123"
                      "name" EmptyString "Model")) = []
  /\ calls (events (process_reupload DEFAULT_CFG fetch_unreadable "123"
                      "name" EmptyString "Model"))
     = [HttpGet (download_endpoint DEFAULT_CFG) 123 (build_headers DEFAULT_CFG)].
Proof.
  split; [|split; [|split; [|split]]].
  - apply (proj1 (fetch_once_then_publish_once DEFAULT_CFG fetch_refused "12a4"
                    "name" EmptyString "Model")).
    reflexivity.
  - apply (proj1 (proj2 (fetch_once_then_publish_once DEFAULT_CFG fetch_refused
                           "123" "name" EmptyString "Model"))
             123 "Download failed 404: denied"); reflexivity.
  - apply (proj1 (proj2 (proj2 (fetch_once_then_publish_once DEFAULT_CFG
                                  publish_refused "123" "name" EmptyString
                                  "Model")))
             123 {| bytes := "payload"; filename := "asset_123.bin" |});
      reflexivity.
  - apply (proj1 (proj2 (proj2 (proj2 (fetch_once_then_publish_once DEFAULT_CFG
                                         bad_endpoint "123" "name" EmptyString
                                         "Model"))))
             123 (OtherError "KeyError")); reflexivity.
  - apply (proj2 (proj2 (proj2 (proj2 (fetch_once_then_publish_once DEFAULT_CFG
                                         fetch_unreadable "123" "name"
                                         EmptyString "Model"))))
             123 unreadable_response (OtherError "ChunkedEncodingError"));
      [reflexivity|reflexivity|vm_compute; discriminate|reflexivity].
Defined.

(** Every run falls in one of the stages. *)
Lemma run_stage cfg net asset_id dname ddesc atype :
  int_of_str asset_id = None
  \/ (exists e, fetch_raised cfg net asset_id e)
  \/ (exists msg, fetch_failed cfg net asset_id msg)
  \/ (exists msg, publish_failed cfg net asset_id dname ddesc atype msg)
  \/ (exists res, published cfg net asset_id dname ddesc atype res).
Proof.
  destruct (int_of_str asset_id) as [i|] eqn:Hi; [right|now left].
  destruct (outcome (download_asset cfg net i)) as [e|[msg|data]] eqn:Hd.
  - left. exists e, i. now split.
  - right. left. exists msg, i. now split.
  - right. right.
    destruct (upload_asset_returns cfg net dname ddesc atype (bytes data)
                (filename data)) as ([msg|res] & Hu).
    + left. exists msg, data. split; [exists i; now split|exact Hu].
    + right. exists res, data. split; [exists i; now split|exact Hu].
Qed.

(** X2: whatever a run returns is either [(True, new_id)] with a new
    identifier that is true in Python's sense, or [(False, None)]. *)
Theorem result_is_true_id_or_false_none cfg net asset_id dname ddesc atype ok v :
  outcome (process_reupload cfg net asset_id dname ddesc atype) = inr (ok, v) ->
  (ok = true /\ truthy v = true) \/ (ok = false /\ v = JNull).
Proof.
  destruct (run_stage cfg net asset_id dname ddesc atype)
    as [H|[(e & H)|[(msg & H)|[(msg & H)|(res & H)]]]].
  - destruct (run_invalid cfg net asset_id dname ddesc atype H) as (-> & _).
    intros [= <- <-]. now right.
  - now destruct (run_fetch_raised cfg net asset_id dname ddesc atype e H)
      as (-> & _).
  - destruct (run_fetch_failed cfg net asset_id dname ddesc atype msg H) as (-> & _).
    intros [= <- <-]. now right.
  - destruct (run_publish_failed cfg net asset_id dname ddesc atype msg H) as (-> & _).
    intros [= <- <-]. now right.
  - destruct (run_published cfg net asset_id dname ddesc atype res H) as (-> & _).
    destruct (new_id_of res) as [e|new_id]; [discriminate|].
    destruct (truthy new_id) eqn:Ht; intros [= <- <-]; [now left|now right].
Qed.

Lemma result_is_true_id_or_false_none_witness :
  (true = true /\ truthy (JInt 999) = true) \/ (true = false /\ JInt 999 = JNull).
Proof.
  apply (result_is_true_id_or_false_none DEFAULT_CFG
           (publishing (JDict [("assetId", JInt 999)]))
           "123" "name" EmptyString "Model").
  reflexivity.
Defined.

Lemma new_id_of_raises res e :
  new_id_of res = inl e ->
  e = AttributeError
  /\ exists d v, res = JDict d
       /\ truthy (py_get "assetId" d) = false
       /\ truthy (py_get "id" d) = false
       /\ dict_get "data" d = Some v
       /\ forall dd, v <> JDict dd.
Proof.
  destruct res as [| | | | | |d]; try discriminate.
  rewrite new_id_of_dict.
  destruct (truthy (py_get "assetId" d)) eqn:Ha; [discriminate|].
  destruct (truthy (py_get "id" d)) eqn:Hb; [discriminate|].
  destruct (dict_get "data" d) as [v|] eqn:Hd; [|discriminate].
  cbn [default from_option id].
  destruct v; cbn [attr_get]; try discriminate;
    intros [= <-]; (split; [reflexivity|]); eexists _, _;
    repeat split; try eassumption; discriminate.
Qed.

(** X3: an exception leaves a run in three ways only: building the URL of
    the download raises it, before any request; reading the text of a
    refused download (status 400 or more) raises it; or it is the
    [AttributeError] of the lookup, after a successful publish whose JSON
    object has no true [assetId], no true [id], and a [data] entry that is
    not an object. *)
Theorem escaping_exceptions cfg net asset_id dname ddesc atype e :
  outcome (process_reupload cfg net asset_id dname ddesc atype) = inl e ->
  (exists i, int_of_str asset_id = Some i
     /\ requests_get net (download_endpoint cfg) i (build_headers cfg) = inl e)
  \/ (exists i r, int_of_str asset_id = Some i
        /\ requests_get net (download_endpoint cfg) i (build_headers cfg)
           = inr (inr r)
        /\ 400 <= status_code r /\ text_raises r = Some e)
  \/ (e = AttributeError
      /\ exists d v,
           published cfg net asset_id dname ddesc atype (JDict d)
           /\ truthy (py_get "assetId" d) = false
           /\ truthy (py_get "id" d) = false
           /\ dict_get "data" d = Some v
           /\ forall dd, v <> JDict dd).
Proof.
  destruct (run_stage cfg net asset_id dname ddesc atype)
    as [H|[(e' & H)|[(msg & H)|[(msg & H)|(res & H)]]]].
  - now destruct (run_invalid cfg net asset_id dname ddesc atype H) as (-> & _).
  - destruct (run_fetch_raised cfg net asset_id dname ddesc atype e' H)
      as (-> & _).
    intros [= <-]. destruct H as (i & Hi & Hd).
    destruct (download_asset_raises cfg net i e' Hd)
      as [(Hg & _)|(r & Hg & Hs & Ht & _)].
    + left. now exists i.
    + right. left. now exists i, r.
  - now destruct (run_fetch_failed cfg net asset_id dname ddesc atype msg H)
      as (-> & _).
  - now destruct (run_publish_failed cfg net asset_id dname ddesc atype msg H)
      as (-> & _).
  - destruct (run_published cfg net asset_id dname ddesc atype res H) as (-> & _).
    destruct (new_id_of res) as [e'|new_id] eqn:Hn.
    + intros [= <-]. destruct (new_id_of_raises _ _ Hn)
        as (-> & d & v & -> & Ha & Hb & Hd & Hv).
      right. right. split; [reflexivity|]. now exists d, v.
    + destruct (truthy new_id); discriminate.
Qed.

Lemma escaping_exceptions_witness :
  (exists i, int_of_str "123" = Some i
     /\ requests_get fetch_unreadable (download_endpoint DEFAULT_CFG) i
          (build_headers DEFAULT_CFG)
        = inl (OtherError "ChunkedEncodingError"))
  \/ (exists i r, int_of_str "123" = Some i
        /\ requests_get fetch_unreadable (download_endpoint DEFAULT_CFG) i
             (build_headers DEFAULT_CFG)
           = inr (inr r)
        /\ 400 <= status_code r
        /\ text_raises r = Some (OtherError "ChunkedEncodingError"))
  \/ (OtherError "ChunkedEncodingError" = AttributeError
      /\ exists d v,
           published DEFAULT_CFG fetch_unreadable "123" "name" EmptyString
             "Model" (JDict d)
           /\ truthy (py_get "assetId" d) = false
           /\ truthy (py_get "id" d) = false
           /\ dict_get "data" d = Some v
           /\ forall dd, v <> JDict dd).
Proof.
  apply (escaping_exceptions DEFAULT_CFG fetch_unreadable
           "123" "name" EmptyString "Model").
  reflexivity.
Defined.

(** X4: a publish response that is valid JSON but not an object (a list, a
    string, a number, null) never raises: the run prints it, pauses and
    returns [(False, None)]. *)
Theorem non_object_response_is_not_found cfg net asset_id dname ddesc atype res :
  published cfg net asset_id dname ddesc atype res ->
  (forall d, res <> JDict d) ->
  outcome (process_reupload cfg net asset_id dname ddesc atype) = inr (false, JNull)
  /\ sleeps (events (process_reupload cfg net asset_id dname ddesc atype))
     = [Sleep 1]
  /\ In (Print [Txt (json_dumps (Some 2%nat) res)])
        (events (process_reupload cfg net asset_id dname ddesc atype)).
Proof.
  intros Hp Hres.
  destruct (run_published cfg net asset_id dname ddesc atype res Hp)
    as (Ho & Hs & _ & _ & Hin).
  assert (new_id_of res = inr JNull) as Hn.
  { destruct res; try reflexivity. now destruct (Hres fields). }
  rewrite Hn in Ho, Hs. repeat split; try assumption.
  now apply (Hin JNull).
Qed.

Lemma non_object_response_is_not_found_witness :
  outcome (process_reupload DEFAULT_CFG (publishing (JList [JInt 1; JInt 2]))
             "123" "name" EmptyString "Model") = inr (false, JNull)
  /\ sleeps (events (process_reupload DEFAULT_CFG (publishing (JList [JInt 1; JInt 2]))
                       "123" "name" EmptyString "Model"))
     = [Sleep 1]
  /\ In (Print [Txt (json_dumps (Some 2%nat) (JList [JInt 1; JInt 2]))])
        (events (process_reupload DEFAULT_CFG (publishing (JList [JInt 1; JInt 2]))
                   "123" "name" EmptyString "Model")).
Proof.
  apply (non_object_response_is_not_found DEFAULT_CFG
           (publishing (JList [JInt 1; JInt 2])) "123" "name" EmptyString "Model").
  - exists {| bytes := "payload"; filename := "asset_123.bin" |}.
    split; [exists 123; split; reflexivity | reflexivity].
  - discriminate.
Defined.

(** ** Transport: status, diagnostics and file names *)

Lemma str_take_length n s : (String.length (str_take n s) <= n)%nat.
Proof.
  unfold str_take. revert s. induction n as [|n IH]; intros [|c s]; cbn; try lia.
  specialize (IH s). lia.
Qed.

Lemma str_take_prefix n s : String.prefix (str_take n s) s = true.
Proof.
  unfold str_take. revert s. induction n as [|n IH]; intros [|c s]; cbn;
    try reflexivity.
  destruct (ascii_dec c c) as [_|Hne]; [apply IH|now destruct Hne].
Qed.

(** X5: [download_asset] succeeds only on a response whose status is below
    400, returning the body of that response and a file name that is not
    empty; on a status of 400 or more it never succeeds: it fails with a
    message that quotes at most the first 400 characters of the response
    text, or, when that text cannot be read, it raises the exception of
    the read. *)
Theorem download_status_and_diagnostic cfg net i :
  (forall data,
     outcome (download_asset cfg net i) = inr (inr data) ->
     exists r,
       requests_get net (download_endpoint cfg) i (build_headers cfg)
       = inr (inr r)
       /\ status_code r < 400
       /\ content r = inr (bytes data)
       /\ str_truthy (filename data) = true)
  /\ (forall r,
        requests_get net (download_endpoint cfg) i (build_headers cfg)
        = inr (inr r) ->
        400 <= status_code r ->
        match text_raises r with
        | Some e => outcome (download_asset cfg net i) = inl e
        | None =>
            exists diag,
              outcome (download_asset cfg net i)
              = inr (inl ("Download failed " +:+ str_of_int (status_code r)
                          +:+ ": " +:+ diag))
              /\ (String.length diag <= 400)%nat
              /\ String.prefix diag (text r) = true
        end).
Proof.
  split.
  - intros data. unfold download_asset.
    destruct (requests_get net _ _ _) as [e|[e|r]]; [discriminate..|].
    destruct (400 <=? status_code r) eqn:Hs;
      [destruct (text_raises r); discriminate|].
    apply Z.leb_gt in Hs.
    destruct (content r) as [e|c] eqn:Hc; [discriminate|].
    run_m. intros [= <-]. exists r. cbn [bytes filename].
    repeat split; try assumption.
    match goal with
    | |- str_truthy (if opt_truthy ?f then _ else _) = true =>
        destruct f as [name|]; cbn [opt_truthy default from_option id];
          [destruct (str_truthy name) eqn:Hn; [exact Hn|reflexivity]|reflexivity]
    end.
  - intros r Hr Hs. unfold download_asset. rewrite Hr.
    apply Z.leb_le in Hs. rewrite Hs.
    destruct (text_raises r) as [e|]; [reflexivity|].
    exists (str_take 400 (text r)).
    split; [reflexivity|]. split; [apply str_take_length|apply str_take_prefix].
Qed.

Lemma download_status_and_diagnostic_witness :
  (exists r,
     requests_get (publishing JNull) (download_endpoint DEFAULT_CFG) 123
       (build_headers DEFAULT_CFG) = inr (inr r)
     /\ status_code r < 400
     /\ content r = inr "payload"
     /\ str_truthy "asset_123.bin" = true)
  /\ (exists diag,
        outcome (download_asset DEFAULT_CFG fetch_refused 123)
        = inr (inl ("Download failed " +:+ str_of_int 404 +:+ ": " +:+ diag))
        /\ (String.length diag <= 400)%nat
        /\ String.prefix diag "denied" = true)
  /\ outcome (download_asset DEFAULT_CFG fetch_unreadable 123)
     = inl (OtherError "ChunkedEncodingError").
Proof.
  split; [|split].
  - apply (proj1 (download_status_and_diagnostic DEFAULT_CFG (publishing JNull) 123)
             {| bytes := "payload"; filename := "asset_123.bin" |}).
    reflexivity.
  - apply (proj2 (download_status_and_diagnostic DEFAULT_CFG fetch_refused 123)
             (error_response 404)); [reflexivity|vm_compute; discriminate].
  - apply (proj2 (download_status_and_diagnostic DEFAULT_CFG fetch_unreadable 123)
             unreadable_response); [reflexivity|vm_compute; discriminate].
Defined.

Lemma prefix_contains sub s : String.prefix sub s = true -> str_contains sub s = true.
Proof. destruct s; cbn [str_contains]; now intros ->. Qed.

Lemma contains_cons sub c s :
  str_contains sub s = true -> str_contains sub (String c s) = true.
Proof. cbn [str_contains]. intros ->. apply orb_true_r. Qed.

(** A text that has [a ++ b] at its head has [b] somewhere. *)
Lemma prefix_app_contains a b : forall s,
  String.prefix (a +:+ b) s = true -> str_contains b s = true.
Proof.
  induction a as [|x a IH]; intros s H.
  - now apply prefix_contains.
  - destruct s as [|c s]; [discriminate H|].
    rewrite str_app_cons in H. cbn [String.prefix] in H.
    destruct (ascii_dec x c); [|discriminate H].
    apply contains_cons. now apply IH.
Qed.

(** A text that contains [a ++ b] contains [b]. *)
Lemma contains_app_r a b s :
  str_contains (a +:+ b) s = true -> str_contains b s = true.
Proof.
  induction s as [|c s IH]; cbn [str_contains]; intros [H|H]%orb_true_iff.
  - now apply (prefix_app_contains a b EmptyString).
  - discriminate H.
  - now apply (prefix_app_contains a b (String c s)).
  - fold (str_contains (a +:+ b) s) in H. apply contains_cons. now apply IH.
Qed.

(** X6: when the response names no file (no Content-Disposition, or one
    without [filename=]), the file name is [asset_<id>.rbxm] if the content
    type contains "xml" and [asset_<id>.bin] otherwise; the second test of
    the content type (line 101) never decides. *)
Theorem synthesized_filename cfg net i r c :
  requests_get net (download_endpoint cfg) i (build_headers cfg)
  = inr (inr r) ->
  status_code r < 400 ->
  content r = inr c ->
  (content_disposition r = None
   \/ exists cd, content_disposition r = Some cd
                 /\ str_contains "filename=" cd = false) ->
  outcome (download_asset cfg net i)
  = inr (inr {| bytes := c;
                filename :=
                  "asset_" +:+ str_of_int i
                  +:+ (if str_contains "xml" (default EmptyString (content_type r))
                       then ".rbxm" else ".bin") |}).
Proof.
  intros Hr Hs Hc Hcd. unfold download_asset. rewrite Hr.
  apply Z.leb_gt in Hs. rewrite Hs, Hc. run_m.
  assert (match content_disposition r with
          | Some cd =>
              if str_truthy cd && str_contains "filename=" cd
              then Some (strip (String " " (String dquote EmptyString))
                           (split_last "filename=" cd))
              else None
          | None => None
          end = None) as ->.
  { destruct Hcd as [->|(cd & -> & ->)]; [reflexivity|].
    now rewrite andb_false_r. }
  cbn [opt_truthy].
  destruct (str_contains "xml" _) eqn:Hx; [reflexivity|].
  destruct (str_contains "text/xml" _) eqn:Ht.
  { apply (contains_app_r "text/" "xml") in Ht. congruence. }
  destruct (str_contains "application/xml" _) eqn:Ha.
  { apply (contains_app_r "application/" "xml") in Ha. congruence. }
  reflexivity.
Qed.

Lemma synthesized_filename_witness :
  outcome (download_asset DEFAULT_CFG (publishing JNull) 123)
  = inr (inr {| bytes := "payload";
                filename :=
                  "asset_" +:+ str_of_int 123
                  +:+ (if str_contains "xml"
                            (default EmptyString (content_type (ok_response None)))
                       then ".rbxm" else ".bin") |}).
Proof.
  apply (synthesized_filename DEFAULT_CFG (publishing JNull) 123 (ok_response None)
           "payload"); [reflexivity|vm_compute; reflexivity|reflexivity|].
  left. reflexivity.
Defined.

(** ** [strip] *)

Lemma lstrip_by_head p s c :
  first_char (lstrip_by p s) = Some c -> p c = false.
Proof.
  induction s as [|x s IH]; [discriminate|]. cbn [lstrip_by].
  destruct (p x) eqn:Hx; [exact IH|]. now intros [= <-].
Qed.

Lemma rstrip_by_head p s c :
  first_char (rstrip_by p s) = Some c -> first_char s = Some c.
Proof.
  destruct s as [|x s]; [discriminate|]. cbn [rstrip_by].
  destruct (rstrip_by p s); [destruct (p x); [discriminate|]|]; now intros [= <-].
Qed.

Lemma rstrip_by_last p s c :
  last_char (rstrip_by p s) = Some c -> p c = false.
Proof.
  induction s as [|x s IH]; [discriminate|]. cbn [rstrip_by].
  destruct (rstrip_by p s) as [|y t].
  - destruct (p x) eqn:Hx; [discriminate|]. now intros [= <-].
  - exact IH.
Qed.

(** What [strip] leaves neither begins nor ends with a stripped
    character. *)
Lemma strip_by_ends p s :
  (forall c, first_char (strip_by p s) = Some c -> p c = false)
  /\ (forall c, last_char (strip_by p s) = Some c -> p c = false).
Proof.
  unfold strip_by. split; intros c H.
  - apply rstrip_by_head in H. now apply lstrip_by_head in H.
  - now apply rstrip_by_last in H.
Qed.

(** X7: a file name taken from the Content-Disposition header is the text
    after the last [filename=], and it neither begins nor ends with a space
    or a double quote. *)
Theorem header_filename_trimmed cfg net i r c cd :
  requests_get net (download_endpoint cfg) i (build_headers cfg)
  = inr (inr r) ->
  status_code r < 400 ->
  content r = inr c ->
  content_disposition r = Some cd ->
  str_contains "filename=" cd = true ->
  str_truthy (strip space_or_quote (split_last "filename=" cd)) = true ->
  exists name,
    outcome (download_asset cfg net i) = inr (inr {| bytes := c; filename := name |})
    /\ name = strip space_or_quote (split_last "filename=" cd)
    /\ (forall x, first_char name = Some x -> char_in x space_or_quote = false)
    /\ (forall x, last_char name = Some x -> char_in x space_or_quote = false).
Proof.
  intros Hr Hs Hc Hcd Hf Hn. eexists. split; [|split; [reflexivity|]].
  - unfold download_asset. rewrite Hr. apply Z.leb_gt in Hs.
    rewrite Hs, Hc, Hcd, Hf. run_m.
    assert (str_truthy cd = true) as ->.
    { destruct cd; [discriminate Hf|reflexivity]. }
    cbn [andb opt_truthy]. fold space_or_quote. rewrite Hn. reflexivity.
  - apply (strip_by_ends (fun x => char_in x space_or_quote)).
Qed.

Lemma header_filename_trimmed_witness :
  exists name,
    outcome (download_asset DEFAULT_CFG
               {| requests_get := fun _ _ _ =>
                    inr (inr {| status_code := 200; text := EmptyString;
                                text_raises := None;
                                content_disposition :=
                                  Some ("attachment; filename="
                                        +:+ quoted "walk.rbxm");
                                content_type := None; content := inr "payload";
                                json_body := None |});
                  requests_post := fun _ _ _ _ _ _ => inl "unused";
                  guess_type := fun _ => None |} 7)
    = inr (inr {| bytes := "payload"; filename := name |})
    /\ name = strip space_or_quote
                (split_last "filename=" ("attachment; filename=" +:+ quoted "walk.rbxm"))
    /\ (forall x, first_char name = Some x -> char_in x space_or_quote = false)
    /\ (forall x, last_char name = Some x -> char_in x space_or_quote = false).
Proof.
  eapply (header_filename_trimmed DEFAULT_CFG _ 7); reflexivity.
Defined.

(** ** The upload *)

(** X8: [upload_asset] succeeds exactly when the POST returns a response
    whose status is below 400 and whose body parses as JSON, and then it
    returns that JSON value; a status of 400 or more fails with at most the
    first 1000 characters of the response text, and so does a body that is
    not JSON. *)
Theorem upload_result cfg net file_bytes fname display_name description asset_type :
  (forall res,
     outcome (upload_asset cfg net file_bytes fname display_name description
                asset_type) = inr (inr res)
     <-> exists r,
           upload_answer cfg net file_bytes fname display_name description
             asset_type = inr r
           /\ status_code r < 400 /\ json_body r = Some res)
  /\ (forall r,
        upload_answer cfg net file_bytes fname display_name description
          asset_type = inr r ->
        400 <= status_code r \/ json_body r = None ->
        exists diag,
          outcome (upload_asset cfg net file_bytes fname display_name description
                     asset_type)
          = inr (inl ((if 400 <=? status_code r
                       then "Upload failed " +:+ str_of_int (status_code r) +:+ ": "
                       else "Upload returned non-json: ") +:+ diag))
          /\ (String.length diag <= 1000)%nat
          /\ String.prefix diag (text r) = true).
Proof.
  unfold upload_answer, upload_request_part, upload_asset. split.
  - intros res.
    destruct (requests_post net _ _ _ _ _ _) as [e|r].
    { split; [discriminate|]. now intros (r & [=] & _). }
    destruct (400 <=? status_code r) eqn:Hs; run_m.
    { apply Z.leb_le in Hs. split; [discriminate|].
      intros (r' & [= <-] & Hlt & _). lia. }
    apply Z.leb_gt in Hs.
    destruct (json_body r) as [v|] eqn:Hj; run_m.
    + split.
      * intros [= <-]. now exists r.
      * intros (r' & [= <-] & _ & Hv). congruence.
    + split; [discriminate|]. intros (r' & [= <-] & _ & Hv). congruence.
  - intros r Hr Hbad. rewrite Hr. exists (str_take 1000 (text r)).
    split; [|split; [apply str_take_length|apply str_take_prefix]].
    destruct (400 <=? status_code r) eqn:Hs; run_m.
    + now rewrite !str_app_assoc.
    + destruct Hbad as [Hbad| ->]; [apply Z.leb_gt in Hs; lia|reflexivity].
Qed.

Lemma upload_result_witness :
  (outcome (upload_asset DEFAULT_CFG (publishing (JDict [("assetId", JInt 999)]))
              "payload" "asset_123.bin" "name" EmptyString "Model")
   = inr (inr (JDict [("assetId", JInt 999)])))
  /\ (exists diag,
        outcome (upload_asset DEFAULT_CFG publish_refused
                   "payload" "asset_123.bin" "name" EmptyString "Model")
        = inr (inl ((if 400 <=? status_code (error_response 500)
                     then "Upload failed "
                          +:+ str_of_int (status_code (error_response 500)) +:+ ": "
                     else "Upload returned non-json: ") +:+ diag))
        /\ (String.length diag <= 1000)%nat
        /\ String.prefix diag (text (error_response 500)) = true).
Proof.
  split.
  - apply (proj1 (upload_result DEFAULT_CFG
                    (publishing (JDict [("assetId", JInt 999)]))
                    "payload" "asset_123.bin" "name" EmptyString "Model")).
    exists (ok_response (Some (JDict [("assetId", JInt 999)]))).
    repeat split.
  - apply (proj2 (upload_result DEFAULT_CFG publish_refused
                    "payload" "asset_123.bin" "name" EmptyString "Model")
             (error_response 500)); [reflexivity|].
    left. vm_compute. discriminate.
Defined.

Lemma escape_char_printable c : str_forall printable (escape_char c) = true.
Proof. destruct c as [[] [] [] [] [] [] [] []]; vm_compute; reflexivity. Qed.

Lemma escape_str_printable s : str_forall printable (escape_str s) = true.
Proof.
  induction s as [|c s IH]; [reflexivity|]. cbn [escape_str].
  now rewrite str_forall_app, escape_char_printable, IH.
Qed.

Lemma dumps_str_printable s : str_forall printable (dumps_str s) = true.
Proof.
  unfold dumps_str. cbn [str_forall].
  now rewrite str_forall_app, escape_str_printable.
Qed.

(** X9: the [request] part that is uploaded is made of printable ASCII
    characters only, whatever the display name, description and asset type
    hold (quotes, back-slashes, control and non-ASCII characters are
    escaped); an empty asset type is sent as "Model". *)
Theorem request_part_is_ascii cfg net file_bytes fname display_name description
    asset_type :
  str_forall printable (upload_request_part display_name description asset_type)
  = true
  /\ upload_request_part display_name description EmptyString
     = upload_request_part display_name description "Model"
  /\ events (upload_asset cfg net file_bytes fname display_name description
               asset_type)
     = [HttpPost (upload_endpoint cfg) (build_headers cfg)
          (upload_request_part display_name description asset_type)
          fname file_bytes (guess_mime_from_name net fname)].
Proof.
  split; [|split; [reflexivity|]].
  - unfold upload_request_part, json_dumps.
    cbn [dumps_at bracket map join item_separator newline_indent fst snd].
    repeat (rewrite ?str_forall_app, ?dumps_str_printable; cbn [str_forall andb]).
    reflexivity.
  - unfold upload_asset, upload_request_part.
    destruct (requests_post net _ _ _ _ _ _) as [e|r]; [reflexivity|].
    destruct (400 <=? status_code r); [reflexivity|].
    destruct (json_body r); reflexivity.
Qed.

(** ** Failures of [save_id_map] *)

Lemma py_int_error v e :
  py_int v = inl e -> e = ValueError \/ e = TypeError \/ e = OverflowError.
Proof.
  destruct v as [| | |[| |]|s| |]; cbn [py_int]; try discriminate;
    try (intros [= <-]; tauto).
  destruct (int_of_str s); [discriminate|]. intros [= <-]. tauto.
Qed.

Lemma map_data_of_error l e :
  map_data_of l = inl e ->
  exists p, In p l /\ (py_int (fst p) = inl e \/ py_int (snd p) = inl e).
Proof.
  induction l as [|[old new] l IH]; cbn [map_data_of]; [discriminate|].
  destruct (py_int old) as [e1|o] eqn:Ho.
  { intros [= <-]. exists (old, new). split; [now left|now left]. }
  destruct (py_int new) as [e2|n] eqn:Hn.
  { intros [= <-]. exists (old, new). split; [now left|now right]. }
  destruct (map_data_of l) as [e3|tl]; [|discriminate].
  intros [= <-]. destruct (IH eq_refl) as (p & Hin & Hp).
  exists p. split; [now right|exact Hp].
Qed.

(** X10: when [save_id_map] raises, it is because [int] rejected a member
    of some pair ([ValueError], [TypeError] or [OverflowError]); it has
    then neither written the file nor printed anything. *)
Theorem save_id_map_raises_before_writing io_error l e :
  outcome (save_id_map io_error l) = inl e ->
  events (save_id_map io_error l) = []
  /\ (e = ValueError \/ e = TypeError \/ e = OverflowError)
  /\ exists p, In p l /\ (py_int (fst p) = inl e \/ py_int (snd p) = inl e).
Proof.
  unfold save_id_map. destruct (map_data_of l) as [e'|data] eqn:Hd.
  - run_m. intros [= <-]. split; [reflexivity|].
    destruct (map_data_of_error _ _ Hd) as (p & Hin & Hp).
    split; [destruct Hp as [Hp|Hp]; exact (py_int_error _ _ Hp)|].
    now exists p.
  - destruct io_error as [[msg|msg kept]|]; run_m; discriminate.
Qed.

Lemma save_id_map_raises_before_writing_witness :
  events (save_id_map None [(JStr "123", JInt 456); (JStr "789", JStr "abc")]) = []
  /\ (ValueError = ValueError \/ ValueError = TypeError
      \/ ValueError = OverflowError)
  /\ exists p, In p [(JStr "123", JInt 456); (JStr "789", JStr "abc")]
       /\ (py_int (fst p) = inl ValueError \/ py_int (snd p) = inl ValueError).
Proof.
  apply (save_id_map_raises_before_writing None
           [(JStr "123", JInt 456); (JStr "789", JStr "abc")] ValueError).
  reflexivity.
Defined.



(** ** Sessions: what is saved, and when *)


Section SavesNonempty.
Context (io_error : option io_failure).






End SavesNonempty.



(** ** The batch: order, uniqueness, isolation of failures *)

Lemma batch_loop_recorded cfg nets dname_prefix ddesc atype total ids :
  forall count acc pairs,
    outcome (batch_loop cfg nets dname_prefix ddesc atype total count acc ids)
    = inr pairs ->
    exists rest olds,
      pairs = (acc ++ rest)%list
      /\ map fst rest = map JStr olds
      /\ olds `sublist_of` ids.
Proof.
  induction ids as [|s ids IH]; intros count acc pairs; cbn [batch_loop].
  - intros [= <-]. exists [], []. rewrite app_nil_r. repeat split. constructor.
  - run_m. destruct (outcome (process_reupload _ _ _ _ _ _)) as [e|r];
      [discriminate|].
    intros H. destruct (IH _ _ _ H) as (rest & olds & -> & Hfst & Hsub).
    destruct (fst r && truthy (snd r)).
    + exists ((JStr s, snd r) :: rest), (s :: olds). unfold append_pair.
      rewrite <- app_assoc. cbn [app map fst]. rewrite Hfst.
      repeat split. now constructor.
    + exists rest, olds. repeat split; [exact Hfst|]. now constructor.
Qed.

Lemma StronglySorted_sublist {A : Type} (R : relation A) (l1 l2 : list A) :
  StronglySorted R l2 -> l1 `sublist_of` l2 -> StronglySorted R l1.
Proof.
  intros Hs Hsub. induction Hsub as [|x l1 l2 Hsub IH|x l1 l2 Hsub IH].
  - constructor.
  - inversion Hs as [|? ? Hs' Hall]; subst. constructor; [now apply IH|].
    rewrite Forall_forall in Hall. apply Forall_forall. intros y Hy.
    apply Hall. now apply (elem_of_sublist l1 l2).
  - inversion Hs; subst. now apply IH.
Qed.

(** X13: the list a batch returns names each old identifier at most once,
    in ascending order of the texts, and only identifiers of the set it was
    given. *)
Theorem batch_pairs_unique_and_sorted cfg nets io_error ids_to_process
    dname_prefix ddesc atype pairs :
  outcome (batch_mode cfg nets io_error ids_to_process dname_prefix ddesc atype)
  = inr pairs ->
  exists olds,
    map fst pairs = map JStr olds
    /\ NoDup olds
    /\ StronglySorted String.le olds
    /\ (forall s, s ∈ olds -> s ∈ ids_to_process).
Proof.
  unfold batch_mode. run_m.
  destruct (outcome (batch_loop _ _ _ _ _ _ _ _ _)) as [e|all_id_pairs] eqn:Hb;
    [discriminate|].
  run_m.
  destruct (outcome (if pairs_truthy all_id_pairs then _ else _)) as [e|[]];
    [discriminate|].
  run_m. intros [= <-].
  destruct (batch_loop_recorded _ _ _ _ _ _ _ _ _ _ Hb)
    as (rest & olds & -> & Hfst & Hsub).
  exists olds. cbn [app]. split; [exact Hfst|].
  assert (NoDup (sorted_ids ids_to_process)) as Hnd.
  { unfold sorted_ids. rewrite merge_sort_Permutation. apply NoDup_elements. }
  split; [now apply (sublist_NoDup olds (sorted_ids ids_to_process))|].
  split.
  - apply (StronglySorted_sublist _ olds (sorted_ids ids_to_process));
      [|exact Hsub].
    unfold sorted_ids. apply StronglySorted_merge_sort; apply _.
  - intros s Hs. apply elem_of_elements.
    rewrite <- (merge_sort_Permutation String.le).
    now apply (elem_of_sublist olds).
Qed.

Lemma batch_pairs_unique_and_sorted_witness :
  exists olds,
    map fst [(JStr "123", JInt 999); (JStr "45", JInt 999)] = map JStr olds
    /\ NoDup olds
    /\ StronglySorted String.le olds
    /\ (forall s, s ∈ olds -> s ∈ ({[ "45"; "x"; "123" ]} : gset string)).
Proof.
  apply (batch_pairs_unique_and_sorted DEFAULT_CFG
           (fun _ => publishing (JDict [("assetId", JInt 999)])) None
           {[ "45"; "x"; "123" ]} EmptyString EmptyString "Animation").
  vm_compute. reflexivity.
Defined.

Lemma fetched_ids_app t1 t2 :
  fetched_ids (t1 ++ t2) = (fetched_ids t1 ++ fetched_ids t2)%list.
Proof. apply omap_app. Qed.

Lemma fetched_ids_cons e t :
  fetched_ids (e :: t)
  = match e with
    | HttpGet _ i _ => i :: fetched_ids t
    | _ => fetched_ids t
    end.
Proof. now destruct e. Qed.

(** Pushes [fetched_ids] through a trace under construction. *)
Ltac push_fetched :=
  repeat (run_m; rewrite ?fetched_ids_cons, ?fetched_ids_app; cbn iota).

(** A run that returns has requested the download of the identifier [int]
    read, once. *)
Lemma run_fetched_ids cfg net asset_id dname ddesc atype r :
  outcome (process_reupload cfg net asset_id dname ddesc atype) = inr r ->
  fetched_ids (events (process_reupload cfg net asset_id dname ddesc atype))
  = match int_of_str asset_id with
    | Some i => [i]
    | None => []
    end.
Proof.
  unfold process_reupload. destruct (int_of_str asset_id) as [i|]; [|reflexivity].
  push_fetched.
  destruct (outcome (download_asset cfg net i)) as [e|[msg|data]] eqn:Hd;
    [discriminate|rewrite (download_asset_returned cfg net i _ Hd)..].
  { reflexivity. }
  destruct (upload_asset_events cfg net dname ddesc atype (bytes data) (filename data))
    as (rp & mime & Hue).
  destruct (upload_asset_returns cfg net dname ddesc atype (bytes data) (filename data))
    as ([msg|res] & Hu).
  - repeat (push_fetched; rewrite ?Hue, ?Hu). reflexivity.
  - repeat (push_fetched; rewrite ?Hue, ?Hu).
    destruct (new_id_of res) as [e|v]; [discriminate|].
    destruct (truthy v); reflexivity.
Qed.

(** X14: a batch that runs to its end has requested the download of every
    identifier [int] accepts exactly once, in the order of the list; and it
    does run to its end unless a run raises: a failed download or upload of
    one asset does not stop it. *)
Theorem batch_fetches_each_once cfg nets dname_prefix ddesc atype total count acc ids :
  (forall pairs,
     outcome (batch_loop cfg nets dname_prefix ddesc atype total count acc ids)
     = inr pairs ->
     fetched_ids
       (events (batch_loop cfg nets dname_prefix ddesc atype total count acc ids))
     = omap int_of_str ids)
  /\ ((forall k s e,
         In s ids ->
         outcome (process_reupload cfg (nets k) s (dname_prefix +:+ s) ddesc atype)
         <> inl e) ->
      exists pairs,
        outcome (batch_loop cfg nets dname_prefix ddesc atype total count acc ids)
        = inr pairs).
Proof.
  split.
  - revert count acc. induction ids as [|s ids IH]; intros count acc pairs;
      cbn [batch_loop]; [reflexivity|].
    push_fetched.
    destruct (outcome (process_reupload _ _ _ _ _ _)) as [e|r] eqn:Hr;
      [discriminate|].
    rewrite (run_fetched_ids _ _ _ _ _ _ _ Hr).
    intros H. rewrite (IH _ _ _ H). cbn [omap list_omap].
    destruct (int_of_str s); reflexivity.
  - intros Hno. revert count acc. induction ids as [|s ids IH]; intros count acc;
      cbn [batch_loop]; [now eexists|].
    run_m. destruct (outcome (process_reupload _ _ _ _ _ _)) as [e|r] eqn:Hr.
    + destruct (Hno count s e); [now left|exact Hr].
    + apply IH. intros k s' e Hin. apply Hno. now right.
Qed.

Lemma batch_fetches_each_once_witness :
  fetched_ids
    (events (batch_loop DEFAULT_CFG (fun _ => fetch_refused) "Anim_" EmptyString
               "Animation" 3 0 [] ["123"; "x"; "45"]))
  = omap int_of_str ["123"; "x"; "45"]
  /\ exists pairs,
       outcome (batch_loop DEFAULT_CFG (fun _ => fetch_refused) "Anim_" EmptyString
                  "Animation" 3 0 [] ["123"; "x"; "45"])
       = inr pairs.
Proof.
  split.
  - apply (proj1 (batch_fetches_each_once DEFAULT_CFG (fun _ => fetch_refused)
                    "Anim_" EmptyString "Animation" 3 0 [] ["123"; "x"; "45"]) []).
    reflexivity.
  - apply (proj2 (batch_fetches_each_once DEFAULT_CFG (fun _ => fetch_refused)
                    "Anim_" EmptyString "Animation" 3 0 [] ["123"; "x"; "45"])).
    intros k s e [<-|[<-|[<-|[]]]]; discriminate.
Defined.

(** ** The extractor, as a set comprehension *)

Lemma scan_prop_elem ids prop s :
  s ∈ scan_prop ids prop <-> s ∈ ids \/ contributes prop s.
Proof.
  unfold scan_prop, contributes.
  destruct (has_marker prop) eqn:Hm.
  2:{ split; [now left|]. intros [H|[[=] _]]. exact H. }
  destruct (el_text prop) as [value|] eqn:Ht.
  2:{ split; [now left|]. intros [H|(_ & v & [=] & _)]. exact H. }
  destruct (str_truthy value) eqn:Hv.
  2:{ split; [now left|]. intros [H|(_ & v & [= <-] & Hv' & _)]; [exact H|].
      congruence. }
  rewrite strip_scheme.
  destruct (isdigit (str_replace scheme EmptyString value)) eqn:Hd.
  - rewrite elem_of_union, elem_of_singleton. split.
    + intros [->|H]; [right|now left]. split; [reflexivity|]. now exists value.
    + intros [H|(_ & v & [= <-] & _ & -> & _)]; [now right|now left].
  - split; [now left|]. intros [H|(_ & v & [= <-] & _ & -> & Hd')]; [exact H|].
    congruence.
Qed.

Lemma foldl_scan_prop_elem props : forall ids s,
  s ∈ foldl scan_prop ids props
  <-> s ∈ ids \/ exists prop, In prop props /\ contributes prop s.
Proof.
  induction props as [|prop props IH]; intros ids s; cbn [foldl].
  - split; [now left|]. intros [H|(prop & [] & _)]. exact H.
  - rewrite IH, scan_prop_elem. split.
    + intros [[H|H]|(p & Hin & Hp)]; [now left| |].
      * right. exists prop. split; [now left|exact H].
      * right. exists p. split; [now right|exact Hp].
    + intros [H|(p & [<-|Hin] & Hp)]; [now left; left|now left; right|].
      right. now exists p.
Qed.

Lemma scan_item_elem ids item s :
  s ∈ scan_item ids item
  <-> s ∈ ids
      \/ exists properties prop,
           find_child "Properties" item = Some properties
           /\ In prop (el_children properties) /\ contributes prop s.
Proof.
  unfold scan_item. destruct (find_child "Properties" item) as [properties|].
  - rewrite foldl_scan_prop_elem. split.
    + intros [H|(prop & Hin & Hp)]; [now left|]. right. now exists properties, prop.
    + intros [H|(ps & prop & [= <-] & Hin & Hp)]; [now left|]. right. now exists prop.
  - split; [now left|]. intros [H|(ps & prop & [=] & _)]. exact H.
Qed.

Lemma foldl_scan_item_elem items : forall ids s,
  s ∈ foldl scan_item ids items
  <-> s ∈ ids
      \/ exists item properties prop,
           In item items
           /\ find_child "Properties" item = Some properties
           /\ In prop (el_children properties) /\ contributes prop s.
Proof.
  induction items as [|item items IH]; intros ids s; cbn [foldl].
  - split; [now left|]. intros [H|(item & ps & prop & [] & _)]. exact H.
  - rewrite IH, scan_item_elem. split.
    + intros [[H|(ps & prop & Hf & Hin & Hp)]|(it & ps & prop & Hit & Hrest)].
      * now left.
      * right. exists item, ps, prop. split; [now left|].
        split; [exact Hf|]. split; [exact Hin|exact Hp].
      * right. exists it, ps, prop. split; [now right|exact Hrest].
    + intros [H|(it & ps & prop & [<-|Hit] & Hrest)].
      * now left; left.
      * left. right. now exists ps, prop.
      * right. now exists it, ps, prop.
Qed.

(** X15: on a parsed document, the extractor returns exactly the texts [s]
    for which some [Item] below the root has, in its first [Properties]
    child, a property that carries the marker and whose text is not empty
    and becomes the digit text [s] once every "rbxassetid://" is removed. *)
Theorem extracted_exactly rbxl_path root ids s :
  outcome (extract_animation_ids rbxl_path (inr root)) = inr ids ->
  s ∈ ids
  <-> exists item properties prop,
        In item (findall_below "Item" root)
        /\ find_child "Properties" item = Some properties
        /\ In prop (el_children properties)
        /\ contributes prop s.
Proof.
  intros [= <-]. rewrite foldl_scan_item_elem. split.
  - intros [H|H]; [now apply not_elem_of_empty in H|exact H].
  - intros H. now right.
Qed.

Lemma extracted_exactly_witness :
  "4827491" ∈ ({[ "4827491"; "12345" ]} : gset string)
  <-> exists item properties prop,
        In item (findall_below "Item"
                   (document_of [marked_prop "rbxassetid://4827491";
                                 marked_prop "notanumber";
                                 marked_prop "12345"]))
        /\ find_child "Properties" item = Some properties
        /\ In prop (el_children properties)
        /\ contributes prop "4827491".
Proof.
  apply (extracted_exactly "place.rbxl"
           (document_of [marked_prop "rbxassetid://4827491";
                         marked_prop "notanumber"; marked_prop "12345"])).
  vm_compute. reflexivity.
Defined.

(** ** [isdigit] against [int] *)

Lemma superscript_not_decimal s :
  str_exists is_superscript_char s = true ->
  str_forall is_decimal_char s = false.
Proof.
  induction s as [|c s IH]; cbn [str_exists str_forall]; [discriminate|].
  intros [Hc|Hs]%orb_true_iff.
  - assert (is_decimal_char c = false) as ->; [|reflexivity].
    destruct c as [[] [] [] [] [] [] [] []]; vm_compute in Hc |- *; congruence.
  - rewrite (IH Hs). apply andb_false_r.
Qed.

(** X16: [isdigit], the test of the manual loop and of the extractor, is
    weaker than [int].  A text that holds one of the superscript digits
    U+00B2, U+00B3, U+00B9 can pass [isdigit], yet [int] rejects it, and the
    pipeline then reports it as invalid without any network call.  A
    non-empty text of the characters 0-9 passes [isdigit], and [int] reads
    it as the number its digits denote in base ten, which is not
    negative. *)
Theorem isdigit_weaker_than_int s :
  (isdigit s = true -> str_exists is_superscript_char s = true ->
   int_of_str s = None
   /\ forall cfg net dname ddesc atype,
        outcome (process_reupload cfg net s dname ddesc atype) = inr (false, JNull)
        /\ calls (events (process_reupload cfg net s dname ddesc atype)) = [])
  /\ (is_decimal_str s = true ->
      isdigit s = true
      /\ int_of_str s = Some (decimal_value s)
      /\ 0 <= decimal_value s).
Proof.
  split.
  - intros H Hsup. pose proof (superscript_not_decimal s Hsup) as Hd.
    assert (int_of_str s = None) as Hn.
    { destruct (int_of_str s) as [z|] eqn:Hz; [|reflexivity].
      assert (is_Some (Some z)) as Hsome by now eexists.
      rewrite <- Hz in Hsome.
      apply (int_of_str_isdigit_some s H) in Hsome. congruence. }
    split; [exact Hn|]. intros cfg net dname ddesc atype.
    destruct (run_invalid cfg net s dname ddesc atype Hn) as (Ho & Hc & _).
    now split.
  - intros H. pose proof (decimal_isdigit _ H) as Hd.
    pose proof (int_of_str_decimal_value _ H) as Hv.
    split; [exact Hd|]. split; [exact Hv|].
    apply (int_of_str_isdigit_nonneg s _ Hd Hv).
Qed.

Lemma isdigit_weaker_than_int_witness :
  (int_of_str (String "1" (String "178" EmptyString)) = None
   /\ forall cfg net dname ddesc atype,
        outcome (process_reupload cfg net (String "1" (String "178" EmptyString))
                   dname ddesc atype) = inr (false, JNull)
        /\ calls (events (process_reupload cfg net
                            (String "1" (String "178" EmptyString))
                            dname ddesc atype)) = [])
  /\ (isdigit "0042" = true
      /\ int_of_str "0042" = Some (decimal_value "0042")
      /\ 0 <= decimal_value "0042")
  /\ decimal_value "0042" = 42.
Proof.
  split; [|split].
  - apply (proj1 (isdigit_weaker_than_int (String "1" (String "178" EmptyString))));
      reflexivity.
  - apply (proj2 (isdigit_weaker_than_int "0042")). reflexivity.
  - reflexivity.
Defined.

(** ** [str] and [int] of an integer *)

Lemma string_of_uint_decimal d :
  str_forall is_decimal_char (NilEmpty.string_of_uint d) = true.
Proof. induction d; cbn [NilEmpty.string_of_uint str_forall]; now rewrite ?IHd. Qed.

Lemma int_digits_of_uint_acc d : forall acc,
  int_digits (Z.pos acc) false (NilEmpty.string_of_uint d)
  = Some (Z.pos (Pos.of_uint_acc d acc)).
Proof.
  induction d; intros acc; cbn [NilEmpty.string_of_uint int_digits Pos.of_uint_acc];
    [reflexivity|..];
    (match goal with
     | |- context [is_decimal_char ?c] =>
         change (is_decimal_char c) with true; cbv iota;
         rewrite <- IHd; f_equal; unfold digit_value;
         let v := eval vm_compute in (Z.of_nat (code c)) in
         change (Z.of_nat (code c)) with v; lia
     end).
Qed.

Lemma int_digits_of_uint d :
  int_digits 0 false (NilEmpty.string_of_uint d) = Some (Z.of_N (Pos.of_uint d)).
Proof.
  induction d; cbn [NilEmpty.string_of_uint int_digits Pos.of_uint];
    [reflexivity|exact IHd|..];
    (match goal with
     | |- context [is_decimal_char ?c] =>
         change (is_decimal_char c) with true; cbv iota;
         cbn [Z.of_N]; rewrite <- int_digits_of_uint_acc; reflexivity
     end).
Qed.

Lemma int_unsigned_of_uint d :
  int_unsigned (NilZero.string_of_uint d) = Some (Z.of_uint d).
Proof.
  unfold Z.of_uint.
  destruct d; cbn [NilZero.string_of_uint NilEmpty.string_of_uint int_unsigned
                   Pos.of_uint];
    [reflexivity|apply int_digits_of_uint|..];
    (match goal with
     | |- context [is_decimal_char ?c] =>
         change (is_decimal_char c) with true; cbv iota;
         cbn [Z.of_N]; rewrite <- int_digits_of_uint_acc; reflexivity
     end).
Qed.

Lemma string_of_uint_isdigit d :
  isdigit (NilZero.string_of_uint d) = true.
Proof.
  apply decimal_isdigit. unfold is_decimal_str.
  destruct d; try reflexivity;
    cbn [NilZero.string_of_uint NilEmpty.string_of_uint str_truthy str_forall andb];
    rewrite string_of_uint_decimal; reflexivity.
Qed.

Lemma minus_not_space_rest s :
  str_forall isdigit_char s = true ->
  strip_by int_space_char (String "-" s) = String "-" s.
Proof.
  intros H. unfold strip_by. cbn [lstrip_by].
  change (int_space_char "-") with false. cbv iota.
  apply (rstrip_by_id _ (fun c => negb (int_space_char c))).
  - intros c. now destruct (int_space_char c).
  - cbn [str_forall]. change (negb (int_space_char "-")) with true. cbn [andb].
    clear -H. induction s as [|c s IH]; [reflexivity|]. cbn [str_forall] in *.
    apply andb_true_iff in H as [Hc Hs].
    now rewrite (isdigit_char_not_space _ Hc), IH.
Qed.

(** X17: the decimal text the script makes of an integer, in printed lines,
    in file names and in the persisted map, is read back by [int] as the
    same integer. *)
Theorem int_of_str_of_int z : int_of_str (str_of_int z) = Some z.
Proof.
  unfold str_of_int. rewrite <- (DecimalZ.of_to z) at 2.
  destruct (Z.to_int z) as [d|d]; cbn [NilZero.string_of_int Z.of_int].
  - rewrite (int_of_str_isdigit _ (string_of_uint_isdigit d)).
    apply int_unsigned_of_uint.
  - unfold int_of_str. rewrite minus_not_space_rest.
    + rewrite int_unsigned_of_uint. reflexivity.
    + pose proof (string_of_uint_isdigit d) as H. unfold isdigit in H.
      destruct (NilZero.string_of_uint d); [discriminate H|exact H].
Qed.

(** ** Config loading *)

Lemma dict_get_set key k v d :
  dict_get k (dict_set key v d)
  = if String.eqb key k then Some v else dict_get k d.
Proof.
  induction d as [|[k' v'] d IH]; cbn [dict_set dict_get].
  - reflexivity.
  - destruct (String.eqb k' key) eqn:Hk'; cbn [dict_get].
    + apply String.eqb_eq in Hk' as ->. now destruct (String.eqb key k).
    + destruct (String.eqb k' k) eqn:Hkk.
      * apply String.eqb_eq in Hkk as ->. rewrite String.eqb_sym in Hk'.
        now rewrite Hk'.
      * exact IH.
Qed.

Lemma dict_get_absent k (d : list (string * json)) :
  ~ In k (map fst d) -> dict_get k d = None.
Proof.
  induction d as [|[k' v'] d IH]; [reflexivity|]. cbn [map fst In dict_get].
  intros H. destruct (String.eqb k' k) eqn:Hk.
  - apply String.eqb_eq in Hk. destruct H. now left.
  - apply IH. intros Hin. apply H. now right.
Qed.

(** In [{**a, **b}] the entries of [b] win and those of [a] fill in. *)
Lemma dict_get_merge k b : forall a,
  List.NoDup (map fst b) ->
  dict_get k (dict_merge a b)
  = match dict_get k b with
    | Some v => Some v
    | None => dict_get k a
    end.
Proof.
  unfold dict_merge.
  induction b as [|[k1 v1] b IH]; intros a Hnd; [reflexivity|].
  cbn [fold_left fst snd map dict_get] in *.
  inversion Hnd as [|? ? Hnotin Hnd']; subst.
  rewrite (IH _ Hnd'), dict_get_set.
  destruct (String.eqb k1 k) eqn:Hk; [|reflexivity].
  apply String.eqb_eq in Hk as ->. now rewrite (dict_get_absent _ _ Hnotin).
Qed.

Lemma dict_merge_keeps_keys k b : forall a,
  is_Some (dict_get k a) -> is_Some (dict_get k (dict_merge a b)).
Proof.
  unfold dict_merge. induction b as [|[k1 v1] b IH]; intros a Ha; [exact Ha|].
  cbn [fold_left fst snd]. apply IH. rewrite dict_get_set.
  destruct (String.eqb k1 k); [now eexists|exact Ha].
Qed.

(** X18: after the configuration is loaded from a JSON object, an entry of
    the file wins over the default of the same key and a key the file lacks
    has its default; whatever the file holds, when loading returns, the four
    keys the script reads are present. *)
Theorem loaded_cfg_lookup :
  (forall d k,
     List.NoDup (map fst d) ->
     exists cfg,
       outcome (load_cfg (Parsed (JDict d))) = inr cfg
       /\ dict_get k cfg
          = match dict_get k d with
            | Some v => Some v
            | None => dict_get k DEFAULT_CFG_dict
            end)
  /\ (forall file cfg k,
        outcome (load_cfg file) = inr cfg ->
        In k ["x_api_key"; "roblosecurity"; "download_endpoint"; "upload_endpoint"] ->
        is_Some (dict_get k cfg)).
Proof.
  split.
  - intros d k Hnd. exists (dict_merge DEFAULT_CFG_dict d). split.
    + unfold load_cfg. run_m. destruct d; reflexivity.
    + now apply dict_get_merge.
  - intros file cfg k Ho Hk.
    assert (is_Some (dict_get k DEFAULT_CFG_dict)) as Hdef.
    { destruct Hk as [<-|[<-|[<-|[<-|[]]]]]; now eexists. }
    assert (exists d, cfg = dict_merge DEFAULT_CFG_dict d) as (d & ->).
    { revert Ho. unfold load_cfg. run_m.
      destruct file as [still|e|v]; repeat run_m.
      - intros Ho. exists DEFAULT_CFG_dict.
        destruct still; vm_compute in Ho; injection Ho as <-; reflexivity.
      - discriminate.
      - destruct (truthy v); [|intros [= <-]; now exists []].
        destruct v; try discriminate. intros [= <-]. now eexists. }
    now apply dict_merge_keeps_keys.
Qed.

Lemma loaded_cfg_lookup_witness :
  (exists cfg,
     outcome (load_cfg (Parsed (JDict [("x_api_key", JStr "k")]))) = inr cfg
     /\ dict_get "upload_endpoint" cfg
        = match dict_get "upload_endpoint" [("x_api_key", JStr "k")] with
          | Some v => Some v
          | None => dict_get "upload_endpoint" DEFAULT_CFG_dict
          end)
  /\ is_Some (dict_get "download_endpoint"
                (dict_merge DEFAULT_CFG_dict [("download_endpoint", JInt 5)])).
Proof.
  split.
  - apply (proj1 loaded_cfg_lookup [("x_api_key", JStr "k")] "upload_endpoint").
    repeat constructor. cbn. tauto.
  - apply (proj2 loaded_cfg_lookup (Parsed (JDict [("download_endpoint", JInt 5)]))).
    + reflexivity.
    + right. right. left. reflexivity.
Defined.

(** X19: a missing file, and a file holding a false value (null, an empty
    object, 0, an empty list), give exactly the defaults; the example file
    is written only when the file is missing, and with the defaults as its
    content; a file holding a true value that is not an object (a number, a
    string, a list) makes the loading raise [TypeError]. *)
Theorem loaded_cfg_defaults :
  (forall still_missing,
     outcome (load_cfg (Missing still_missing)) = inr DEFAULT_CFG_dict
     /\ written (events (load_cfg (Missing still_missing)))
        = if still_missing
          then [("config.json", json_dumps (Some 2%nat) (JDict DEFAULT_CFG_dict))]
          else [])
  /\ (forall v,
        truthy v = false ->
        load_cfg (Parsed v) = ([], inr DEFAULT_CFG_dict))
  /\ (forall v,
        truthy v = true -> (forall d, v <> JDict d) ->
        load_cfg (Parsed v) = ([], inl TypeError)).
Proof.
  split; [|split].
  - intros [|]; split; reflexivity.
  - intros v Hv. unfold load_cfg. cbn [mbind M_bind mret M_ret].
    now rewrite Hv.
  - intros v Hv Hd. unfold load_cfg. cbn [mbind M_bind mret M_ret]. rewrite Hv.
    destruct v; try reflexivity. now destruct (Hd fields).
Qed.

Lemma loaded_cfg_defaults_witness :
  load_cfg (Parsed JNull) = ([], inr DEFAULT_CFG_dict)
  /\ load_cfg (Parsed (JList [JInt 1])) = ([], inl TypeError).
Proof.
  split.
  - apply (proj1 (proj2 loaded_cfg_defaults) JNull). reflexivity.
  - apply (proj2 (proj2 loaded_cfg_defaults) (JList [JInt 1]));
      [reflexivity|discriminate].
Defined.
